(** * hotel_analysis.py: a shallow embedding and its properties

    The script reads one JSON document, sums the taxes of its first
    assignment result, finds the cheapest room, adds the tax total to every
    room price, writes the result as JSON and prints it.

    Layout of this file:
    - [PyFloat]: Python's [float] (IEEE 754 binary64), [float(str)],
      [float(int)], [+], [<] and the [.2f] format;
    - Python values, exceptions, ordered dictionaries, subscripts;
    - [Json]: [json.loads];
    - files, the console, and the five functions of [hotel_analysis.py];
    - the notions the properties are stated with, and example documents;
    - the properties, then their instances on the example documents.

    What the model takes from Python and what it leaves out:
    - a [str] is the sequence of its UTF-8 bytes; [float(str)] reads ASCII
      digits and ASCII white space only;
    - [sum] adds from left to right, starting from the int [0], as CPython
      does up to 3.11; from 3.12 on it compensates the rounding of floats
      and can return another float for two values or more;
    - [json.loads] is modelled within the interpreter's limits: it has no
      ValueError for an integer literal of more than 4300 digits and no
      RecursionError for deep nesting ([within_limits] bounds a text so
      that neither can occur);
    - a file written by [json.dump] holds the value dumped, a [print] adds
      its arguments to the console: the text of neither is modelled;
    - opening the output file for writing always succeeds, and so does
      [print]: a run never raises after the write. *)

From Stdlib Require Import ZArith List String Ascii Bool Lia DecimalString.
From Stdlib Require Import SpecFloat.
From stdpp Require Import base gmap strings.
Import ListNotations.

Set Warnings "-register-all".

Local Open Scope string_scope.
Local Open Scope list_scope.
Local Open Scope Z_scope.

(** ** Python floats *)

Module PyFloat.

(** CPython's [float] is the C double: 53 bits of precision, exponents
    below 1024.  [spec_float] carries no NaN payload and no NaN sign, which
    Python does not show either. *)
Definition prec : Z := 53.
Definition emax : Z := 1024.
Definition float : Type := spec_float.

Definition pos_zero : float := S754_zero false.

Definition add (x y : float) : float := SFadd prec emax x y.
Definition ltb (x y : float) : bool := SFltb x y.
Definition leb (x y : float) : bool := SFleb x y.
Definition eqb (x y : float) : bool := SFeqb x y.

Definition is_nan (x : float) : bool :=
  match x with S754_nan => true | _ => false end.

Definition is_finite (x : float) : bool :=
  match x with S754_zero _ | S754_finite _ _ _ => true | _ => false end.

(** [1.0], the value of [float(True)]. *)
Definition one : float := S754_finite false 4503599627370496 (-52).

(** [float(n)] for an int [n]: the nearest double, ties to even; [None]
    stands for the OverflowError of an int beyond the finite range. *)
Definition of_Z (z : Z) : option float :=
  match binary_normalize prec emax z 0 false with
  | S754_infinity _ => None
  | f => Some f
  end.

(** The double nearest to [(-1)^neg * m * 10^e], ties to even. *)
Definition of_decimal (neg : bool) (m : Z) (e : Z) : float :=
  match m with
  | Zpos p =>
      if 0 <=? e then binary_round prec emax neg (p * Z.to_pos (10 ^ e)) 0
      else SFdiv prec emax (S754_finite neg p 0)
                           (S754_finite false (Z.to_pos (10 ^ (- e))) 0)
  | _ => S754_zero neg
  end.

(** *** [float(str)] on ASCII text *)

Definition is_digit (c : ascii) : bool :=
  let n := N_of_ascii c in (48 <=? n)%N && (n <=? 57)%N.

Definition digit_val (c : ascii) : Z := Z.of_N (N_of_ascii c) - 48.

(** Space, and the controls \t \n \v \f \r. *)
Definition is_space (c : ascii) : bool :=
  let n := N_of_ascii c in (n =? 32)%N || ((9 <=? n)%N && (n <=? 13)%N).

Definition lower (c : ascii) : ascii :=
  let n := N_of_ascii c in
  if (65 <=? n)%N && (n <=? 90)%N then ascii_of_N (n + 32) else c.

Fixpoint lstrip (s : list ascii) : list ascii :=
  match s with
  | c :: r => if is_space c then lstrip r else s
  | [] => []
  end.

Definition strip (s : list ascii) : list ascii :=
  rev (lstrip (rev (lstrip s))).

(** The longest prefix made of digits and underscores, and the rest. *)
Fixpoint span_digits (s : list ascii) : list ascii * list ascii :=
  match s with
  | c :: r =>
      if is_digit c || Ascii.eqb c "_" then
        let '(run, rest) := span_digits r in (c :: run, rest)
      else ([], s)
  | [] => ([], [])
  end.

(** A digit part: digits, with single underscores between digits only.
    Returns the digits. *)
Fixpoint digitpart (prev_digit : bool) (run : list ascii) : option (list ascii) :=
  match run with
  | [] => if prev_digit then Some [] else None
  | c :: r =>
      if is_digit c then option_map (cons c) (digitpart true r)
      else if prev_digit then digitpart false r else None
  end.

Definition digits_value (ds : list ascii) : Z :=
  fold_left (fun acc c => 10 * acc + digit_val c) ds 0.

(** Optional sign: [(negative, rest)]. *)
Definition take_sign (s : list ascii) : bool * list ascii :=
  match s with
  | c :: r =>
      if Ascii.eqb c "-" then (true, r)
      else if Ascii.eqb c "+" then (false, r) else (false, s)
  | [] => (false, [])
  end.

(** The exponent part, when there is one: [e], an optional sign, a digit
    part, then the end of the text. *)
Definition parse_exponent (s : list ascii) : option Z :=
  match s with
  | [] => Some 0
  | c :: r =>
      if Ascii.eqb (lower c) "e" then
        let '(neg, r1) := take_sign r in
        let '(run, rest) := span_digits r1 in
        match digitpart false run, rest with
        | Some ds, [] => Some (if neg then - digits_value ds else digits_value ds)
        | _, _ => None
        end
      else None
  end.

(** An unsigned decimal literal: [(mantissa, exponent of ten)]. *)
Definition parse_number (s : list ascii) : option (Z * Z) :=
  let '(irun, r1) := span_digits s in
  let '(frun, r2) :=
    match r1 with
    | c :: r => if Ascii.eqb c "." then span_digits r else ([], r1)
    | [] => ([], [])
    end in
  let ipart := match irun with [] => None | _ => Some (digitpart false irun) end in
  let fpart := match frun with [] => None | _ => Some (digitpart false frun) end in
  let digits :=
    match ipart, fpart with
    | None, None => None
    | Some None, _ | _, Some None => None
    | Some (Some i), None => Some (i, [])
    | None, Some (Some f) => Some ([], f)
    | Some (Some i), Some (Some f) => Some (i, f)
    end in
  match digits, parse_exponent r2 with
  | Some (i, f), Some ex =>
      Some (digits_value (i ++ f), ex - Z.of_nat (length f))
  | _, _ => None
  end.

(** [float(s)]: [None] stands for the ValueError.  Text is a sequence of
    bytes here; CPython also accepts non-ASCII digits and spaces, which this
    function rejects. *)
Definition of_string (s : string) : option float :=
  let '(neg, body) := take_sign (strip (list_ascii_of_string s)) in
  let word := string_of_list_ascii (map lower body) in
  if String.eqb word "inf" || String.eqb word "infinity" then Some (S754_infinity neg)
  else if String.eqb word "nan" then Some S754_nan
  else
    match parse_number body with
    | Some (m, e) => Some (of_decimal neg m e)
    | None => None
    end.

(** *** The [.2f] format *)

(** [n / d] rounded to the nearest integer, ties to even ([0 <= n], [0 < d]). *)
Definition round_half_even_div (n d : Z) : Z :=
  let q := n / d in
  match 2 * (n mod d) ?= d with
  | Lt => q
  | Gt => q + 1
  | Eq => if Z.even q then q else q + 1
  end.

(** [m * 2^e] in hundredths. *)
Definition hundredths (m : positive) (e : Z) : Z :=
  if 0 <=? e then Zpos m * 100 * 2 ^ e
  else round_half_even_div (Zpos m * 100) (2 ^ (- e)).

Definition decimal (z : Z) : string :=
  NilZero.string_of_uint (N.to_uint (Z.to_N z)).

Definition digit_char (d : Z) : ascii := ascii_of_N (48 + Z.to_N d).

Definition two_digits (r : Z) : string :=
  String (digit_char (r / 10)) (String (digit_char (r mod 10)) EmptyString).

Definition sign_string (neg : bool) : string := if neg then "-" else EmptyString.

(** [format(x, ".2f")], that is [f"{x:.2f}"]. *)
Definition format_2f (x : float) : string :=
  match x with
  | S754_nan => "nan"
  | S754_infinity s => (sign_string s ++ "inf")%string
  | S754_zero s => (sign_string s ++ "0.00")%string
  | S754_finite s m e =>
      let n := hundredths m e in
      (sign_string s ++ decimal (n / 100) ++ "." ++ two_digits (n mod 100))%string
  end.

End PyFloat.


(** ** Python values, exceptions and subscripts *)

(** The exception classes the script can raise. *)
Inductive exn :=
| FileNotFoundError | JSONDecodeError | KeyError | IndexError
| TypeError | ValueError | AttributeError | OverflowError.

Inductive result (A : Type) :=
| Ok (a : A)
| Raise (e : exn).
Arguments Ok {A} a.
Arguments Raise {A} e.

Definition bind {A B : Type} (r : result A) (k : A -> result B) : result B :=
  match r with
  | Ok a => k a
  | Raise e => Raise e
  end.

Notation "'let*' x ':=' r 'in' k" := (bind r (fun x => k))
  (at level 10, x pattern, r at level 100, k at level 200).

Definition of_option {A : Type} (e : exn) (o : option A) : result A :=
  match o with
  | Some a => Ok a
  | None => Raise e
  end.

(** The values [json.loads] builds.  A [str] is its UTF-8 bytes.  A [dict]
    keeps its entries in insertion order, as Python's does; its keys are
    strings, since every dict here comes from a JSON object. *)
Inductive pyval :=
| PNone
| PBool (b : bool)
| PInt (z : Z)
| PFloat (f : PyFloat.float)
| PStr (s : string)
| PList (items : list pyval)
| PDict (entries : list (string * pyval)).

Section Dict.
Context {V : Type}.

Definition dict : Type := list (string * V).

Fixpoint dict_get (k : string) (d : dict) : option V :=
  match d with
  | [] => None
  | (k', v) :: r => if String.eqb k' k then Some v else dict_get k r
  end.

(** [d[k] = v]: an existing key keeps its place, a new key goes last. *)
Fixpoint dict_set (k : string) (v : V) (d : dict) : dict :=
  match d with
  | [] => [(k, v)]
  | (k', v') :: r =>
      if String.eqb k' k then (k', v) :: r else (k', v') :: dict_set k v r
  end.

Definition dict_keys (d : dict) : list string := map fst d.
Definition dict_values (d : dict) : list V := map snd d.
End Dict.
Arguments dict V : clear implicits.

(** Python's two number types, as far as [sum] and [+] see them. *)
Inductive number :=
| NInt (z : Z)
| NFloat (f : PyFloat.float).

(** [float(v)]. *)
Definition py_float (v : pyval) : result PyFloat.float :=
  match v with
  | PFloat f => Ok f
  | PInt z => of_option OverflowError (PyFloat.of_Z z)
  | PBool b => Ok (if b then PyFloat.one else PyFloat.pos_zero)
  | PStr s => of_option ValueError (PyFloat.of_string s)
  | PNone | PList _ | PDict _ => Raise TypeError
  end.

(** The float a number stands for in mixed arithmetic. *)
Definition number_to_float (n : number) : result PyFloat.float :=
  match n with
  | NFloat f => Ok f
  | NInt z => of_option OverflowError (PyFloat.of_Z z)
  end.

(** [a + b] on numbers: int addition on two ints, float addition after
    conversion otherwise. *)
Definition number_add (a b : number) : result number :=
  match a, b with
  | NInt x, NInt y => Ok (NInt (x + y))
  | _, _ =>
      let* x := number_to_float a in
      let* y := number_to_float b in
      Ok (NFloat (PyFloat.add x y))
  end.

(** [a == b] on numbers. *)
Definition number_eqb (a b : number) : bool :=
  match a, b with
  | NInt x, NInt y => x =? y
  | NFloat x, NFloat y => PyFloat.eqb x y
  | NInt x, NFloat y | NFloat y, NInt x =>
      match y with
      | S754_zero _ => x =? 0
      | S754_finite s m e =>
          (0 <=? e) && (x =? (if s then -1 else 1) * Zpos m * 2 ^ e)
          || (e <? 0) && (x * 2 ^ (- e) =? (if s then -1 else 1) * Zpos m)
      | _ => false
      end
  end.

(** [x.2f] formatting of an optional float: [None] has no such format. *)
Definition format_2f (x : option PyFloat.float) : result string :=
  match x with
  | Some f => Ok (PyFloat.format_2f f)
  | None => Raise TypeError
  end.

(** [l[i]] on a sequence, with Python's negative indices. *)
Definition seq_index {A : Type} (l : list A) (i : Z) : result A :=
  let n := Z.of_nat (length l) in
  let j := if i <? 0 then i + n else i in
  if (0 <=? j) && (j <? n)
  then of_option IndexError (nth_error l (Z.to_nat j))
  else Raise IndexError.

(** The characters of a string: each lead byte with its continuation bytes. *)
Fixpoint code_points (s : string) : list string :=
  match s with
  | EmptyString => []
  | String c r =>
      match code_points r with
      | String c' w :: rest =>
          let n := N_of_ascii c' in
          if (128 <=? n)%N && (n <? 192)%N
          then String c (String c' w) :: rest
          else String c EmptyString :: String c' w :: rest
      | other => String c EmptyString :: other
      end
  end.

(** [obj[key]]. *)
Definition getitem (obj key : pyval) : result pyval :=
  match obj with
  | PDict d =>
      match key with
      | PStr k => of_option KeyError (dict_get k d)
      | PList _ | PDict _ => Raise TypeError
      | _ => Raise KeyError
      end
  | PList l =>
      match key with
      | PInt i => seq_index l i
      | PBool b => seq_index l (if b then 1 else 0)
      | _ => Raise TypeError
      end
  | PStr s =>
      match key with
      | PInt i => let* c := seq_index (code_points s) i in Ok (PStr c)
      | PBool b =>
          let* c := seq_index (code_points s) (if b then 1 else 0) in Ok (PStr c)
      | _ => Raise TypeError
      end
  | _ => Raise TypeError
  end.

(** [d.items()] and [d.values()]: only a dict has them. *)
Definition py_items (v : pyval) : result (dict pyval) :=
  match v with
  | PDict d => Ok d
  | _ => Raise AttributeError
  end.

Definition py_values (v : pyval) : result (list pyval) :=
  match v with
  | PDict d => Ok (dict_values d)
  | _ => Raise AttributeError
  end.

(** ** [json.loads] *)

Module Json.

Inductive token :=
| TLBrace | TRBrace | TLBracket | TRBracket | TColon | TComma
| TString (s : string)
| TWord (w : list ascii).

(** The scanner reads one byte at a time.  Accumulators are reversed.
    Inside a string, [hi] is a high surrogate read from a [\u] escape and
    not yet written: a low surrogate escape right after it makes one
    character of the two. *)
Inductive lexer_state :=
| LIdle
| LWord (acc : list ascii)
| LString (acc : list ascii) (hi : option N)
| LEscape (acc : list ascii) (hi : option N)
| LUnicode (acc : list ascii) (hi : option N) (todo : nat) (code : N).

Definition byte (n : N) : ascii := ascii_of_N n.

(** UTF-8 bytes of a code point, reversed. *)
Definition utf8_rev (n : N) : list ascii :=
  if (n <? 128)%N then [byte n]
  else if (n <? 2048)%N then
    [byte (128 + n mod 64); byte (192 + n / 64)]
  else if (n <? 65536)%N then
    [byte (128 + n mod 64); byte (128 + (n / 64) mod 64); byte (224 + n / 4096)]
  else
    [byte (128 + n mod 64); byte (128 + (n / 64) mod 64);
     byte (128 + (n / 4096) mod 64); byte (240 + n / 262144)].

Definition flush (acc : list ascii) (hi : option N) : list ascii :=
  match hi with
  | Some h => utf8_rev h ++ acc
  | None => acc
  end.

Definition hex_val (c : ascii) : option N :=
  let n := N_of_ascii c in
  if (48 <=? n)%N && (n <=? 57)%N then Some (n - 48)%N
  else if (65 <=? n)%N && (n <=? 70)%N then Some (n - 55)%N
  else if (97 <=? n)%N && (n <=? 102)%N then Some (n - 87)%N
  else None.

(** What a backslash letter other than [u] stands for. *)
Definition simple_escape (c : ascii) : option ascii :=
  let n := N_of_ascii c in
  if (n =? 34)%N || (n =? 92)%N || (n =? 47)%N then Some c
  else if Ascii.eqb c "b" then Some (byte 8)
  else if Ascii.eqb c "f" then Some (byte 12)
  else if Ascii.eqb c "n" then Some (byte 10)
  else if Ascii.eqb c "r" then Some (byte 13)
  else if Ascii.eqb c "t" then Some (byte 9)
  else None.

(** A complete [\uXXXX] escape inside a string. *)
Definition end_unicode (acc : list ascii) (hi : option N) (code : N) : lexer_state :=
  let is_low := (56320 <=? code)%N && (code <=? 57343)%N in
  let is_high := (55296 <=? code)%N && (code <=? 56319)%N in
  match hi with
  | Some h =>
      if is_low then
        LString (utf8_rev (65536 + (h - 55296) * 1024 + (code - 56320)) ++ acc) None
      else if is_high then LString (flush acc hi) (Some code)
      else LString (utf8_rev code ++ flush acc hi) None
  | None =>
      if is_high then LString acc (Some code)
      else LString (utf8_rev code ++ acc) None
  end.

Definition is_whitespace (c : ascii) : bool :=
  let n := N_of_ascii c in
  (n =? 32)%N || (n =? 9)%N || (n =? 10)%N || (n =? 13)%N.

Definition is_quote (c : ascii) : bool := (N_of_ascii c =? 34)%N.

Definition structural (c : ascii) : option token :=
  if Ascii.eqb c "{" then Some TLBrace
  else if Ascii.eqb c "}" then Some TRBrace
  else if Ascii.eqb c "[" then Some TLBracket
  else if Ascii.eqb c "]" then Some TRBracket
  else if Ascii.eqb c ":" then Some TColon
  else if Ascii.eqb c "," then Some TComma
  else None.

(** A byte read between tokens. *)
Definition idle_step (toks : list token) (c : ascii) : lexer_state * list token :=
  if is_whitespace c then (LIdle, toks)
  else if is_quote c then (LString [] None, toks)
  else
    match structural c with
    | Some t => (LIdle, t :: toks)
    | None => (LWord [c], toks)
    end.

Definition lex_step (st : lexer_state) (toks : list token) (c : ascii)
  : option (lexer_state * list token) :=
  match st with
  | LIdle => Some (idle_step toks c)
  | LWord acc =>
      if is_whitespace c || is_quote c || bool_decide (structural c <> None)
      then Some (idle_step (TWord (rev acc) :: toks) c)
      else Some (LWord (c :: acc), toks)
  | LString acc hi =>
      if is_quote c then
        Some (LIdle, TString (string_of_list_ascii (rev (flush acc hi))) :: toks)
      else if (N_of_ascii c =? 92)%N then Some (LEscape acc hi, toks)
      else if (N_of_ascii c <? 32)%N then None
      else Some (LString (c :: flush acc hi) None, toks)
  | LEscape acc hi =>
      if Ascii.eqb c "u" then Some (LUnicode acc hi 4 0%N, toks)
      else
        match simple_escape c with
        | Some b => Some (LString (b :: flush acc hi) None, toks)
        | None => None
        end
  | LUnicode acc hi todo code =>
      match hex_val c with
      | Some h =>
          let code' := (16 * code + h)%N in
          match todo with
          | S (S n) => Some (LUnicode acc hi (S n) code', toks)
          | _ => Some (end_unicode acc hi code', toks)
          end
      | None => None
      end
  end.

Fixpoint lex (st : lexer_state) (toks : list token) (s : list ascii)
  : option (list token) :=
  match s with
  | [] =>
      match st with
      | LIdle => Some (rev toks)
      | LWord acc => Some (rev (TWord (rev acc) :: toks))
      | _ => None
      end
  | c :: r =>
      match lex_step st toks c with
      | Some (st', toks') => lex st' toks' r
      | None => None
      end
  end.

(** The longest prefix of digits, and the rest. *)
Fixpoint span_digits (s : list ascii) : list ascii * list ascii :=
  match s with
  | c :: r =>
      if PyFloat.is_digit c then
        let '(run, rest) := span_digits r in (c :: run, rest)
      else ([], s)
  | [] => ([], [])
  end.

(** A JSON number: an optional minus; an integer part, either a lone zero
    or digits that do not start with zero; an optional point with at least
    one digit; an optional exponent letter with an optional sign and at
    least one digit.  It is an int when it has neither fraction nor
    exponent, a float otherwise.  Python's [int] refuses a literal of more
    than 4300 digits with a ValueError; this function has no such limit,
    and [within_limits] keeps a text below it. *)
Definition number (w : list ascii) : option pyval :=
  let '(neg, r0) :=
    match w with
    | c :: r => if Ascii.eqb c "-" then (true, r) else (false, w)
    | [] => (false, [])
    end in
  let '(ids, r1) := span_digits r0 in
  let int_ok :=
    match ids with
    | [] => false
    | c :: rest => negb (Ascii.eqb c "0") || bool_decide (rest = [])
    end in
  let '(frac, r2) :=
    match r1 with
    | c :: r =>
        if Ascii.eqb c "." then
          let '(fds, r2) := span_digits r in (Some fds, r2)
        else (None, r1)
    | [] => (None, [])
    end in
  let expo :=
    match r2 with
    | [] => Some None
    | c :: r =>
        if Ascii.eqb (PyFloat.lower c) "e" then
          let '(eneg, r3) := PyFloat.take_sign r in
          match span_digits r3 with
          | (d :: ds, []) =>
              let v := PyFloat.digits_value (d :: ds) in
              Some (Some (if eneg then - v else v))
          | _ => None
          end
        else None
    end in
  if negb int_ok then None
  else
    match frac, expo with
    | Some [], _ | _, None => None
    | None, Some None =>
        Some (PInt (if neg then - PyFloat.digits_value ids else PyFloat.digits_value ids))
    | _, Some e =>
        let fds := match frac with Some f => f | None => [] end in
        let ex := match e with Some x => x | None => 0 end in
        Some (PFloat (PyFloat.of_decimal neg (PyFloat.digits_value (ids ++ fds))
                                         (ex - Z.of_nat (length fds))))
    end.

(** A token that is neither a string nor punctuation: a literal or a number. *)
Definition word (w : list ascii) : option pyval :=
  let s := string_of_list_ascii w in
  if String.eqb s "true" then Some (PBool true)
  else if String.eqb s "false" then Some (PBool false)
  else if String.eqb s "null" then Some PNone
  else if String.eqb s "NaN" then Some (PFloat S754_nan)
  else if String.eqb s "Infinity" then Some (PFloat (S754_infinity false))
  else if String.eqb s "-Infinity" then Some (PFloat (S754_infinity true))
  else number w.

(** The parser keeps the open containers on a stack, innermost first. *)
Inductive frame :=
| FArray (items : list pyval)                      (* reversed *)
| FObject (d : dict pyval)
| FMember (d : dict pyval) (key : string).         (* key read, value awaited *)

Inductive mode :=
| MValue          (* a value must come *)
| MFirstItem      (* after an opening bracket: a value or the closing one *)
| MFirstKey       (* after an opening brace: a key or the closing one *)
| MKey            (* after a comma in an object: a key *)
| MColon          (* after a key *)
| MNext           (* after a value inside a container *)
| MDone (v : pyval).

(** A value is complete: it goes into the innermost open container. *)
Definition complete (v : pyval) (stack : list frame) : option (mode * list frame) :=
  match stack with
  | [] => Some (MDone v, [])
  | FArray items :: st => Some (MNext, FArray (v :: items) :: st)
  | FMember d k :: st => Some (MNext, FObject (dict_set k v d) :: st)
  | FObject _ :: _ => None
  end.

Definition start_value (t : token) (stack : list frame) : option (mode * list frame) :=
  match t with
  | TString s => complete (PStr s) stack
  | TWord w => match word w with Some v => complete v stack | None => None end
  | TLBracket => Some (MFirstItem, FArray [] :: stack)
  | TLBrace => Some (MFirstKey, FObject [] :: stack)
  | _ => None
  end.

Definition close_array (stack : list frame) : option (mode * list frame) :=
  match stack with
  | FArray items :: st => complete (PList (rev items)) st
  | _ => None
  end.

Definition close_object (stack : list frame) : option (mode * list frame) :=
  match stack with
  | FObject d :: st => complete (PDict d) st
  | _ => None
  end.

Definition read_key (t : token) (stack : list frame) : option (mode * list frame) :=
  match t, stack with
  | TString k, FObject d :: st => Some (MColon, FMember d k :: st)
  | _, _ => None
  end.

Definition parse_step (m : mode) (stack : list frame) (t : token)
  : option (mode * list frame) :=
  match m with
  | MValue => start_value t stack
  | MFirstItem =>
      match t with
      | TRBracket => close_array stack
      | _ => start_value t stack
      end
  | MFirstKey =>
      match t with
      | TRBrace => close_object stack
      | _ => read_key t stack
      end
  | MKey => read_key t stack
  | MColon => match t with TColon => Some (MValue, stack) | _ => None end
  | MNext =>
      match t, stack with
      | TComma, FArray _ :: _ => Some (MValue, stack)
      | TComma, FObject _ :: _ => Some (MKey, stack)
      | TRBracket, _ => close_array stack
      | TRBrace, _ => close_object stack
      | _, _ => None
      end
  | MDone _ => None
  end.

Fixpoint parse (m : mode) (stack : list frame) (toks : list token) : option pyval :=
  match toks with
  | [] => match m with MDone v => Some v | _ => None end
  | t :: r =>
      match parse_step m stack t with
      | Some (m', stack') => parse m' stack' r
      | None => None
      end
  end.

(** The value a JSON text denotes, if it is one. *)
Definition decode (s : string) : option pyval :=
  match lex LIdle [] (list_ascii_of_string s) with
  | Some toks => parse MValue [] toks
  | None => None
  end.

(** [json.loads(v)]: a text is decoded, anything else is a TypeError.  The
    interpreter's own limits are left out: a text with an integer literal
    of more than 4300 digits (ValueError) or with nesting beyond the
    recursion limit (RecursionError) is outside this model. *)
Definition loads (v : pyval) : result pyval :=
  match v with
  | PStr s => of_option JSONDecodeError (decode s)
  | _ => Raise TypeError
  end.

End Json.

(** ** Files and the console *)

(** A file holds text, or what [json.dump] wrote for a value: the exact
    serialisation is not modelled, [json.load] gives the value back. *)
Inductive file :=
| Text (s : string)
| JsonDump (indent : nat) (v : pyval).

(** The console is the list of [print] calls, each with its arguments.
    Here [print] always succeeds; a broken or badly encoded standard output
    is not modelled. *)
Record world := World {
  files : gmap string file;
  console : list (list pyval)
}.

(** An action runs in a world and leaves one, whether it returns or raises:
    what was done before an exception stays done. *)
Definition action (A : Type) : Type := world -> result A * world.

Definition lift {A : Type} (r : result A) : action A := fun w => (r, w).

Definition and_then {A B : Type} (m : action A) (k : A -> action B) : action B :=
  fun w =>
    match m w with
    | (Ok a, w') => k a w'
    | (Raise e, w') => (Raise e, w')
    end.

Notation "'do' x '<-' m ';' k" := (and_then m (fun x => k))
  (at level 10, x pattern, m at level 100, k at level 200).

Definition print (args : list pyval) : action unit :=
  fun w => (Ok tt, World (files w) (console w ++ [args])).

(** ** hotel_analysis.py *)

(** [with open(file_path, "r") as file: return json.load(file)] *)
Definition read_json_file (file_path : string) : action pyval :=
  fun w =>
    match files w !! file_path with
    | None => (Raise FileNotFoundError, w)
    | Some (Text s) => (Json.loads (PStr s), w)
    | Some (JsonDump _ v) => (Ok v, w)
    end.

(** [sum(...)] over the generator [float(value) for value in values]: the
    running total starts at the int [0]; each value is converted when the
    sum reaches it, so the first value that does not convert raises.  The
    floats are added one by one, as CPython does up to 3.11; the compensated
    sum of CPython 3.12 and later agrees on no value and on one value. *)
Fixpoint sum_floats (total : number) (values : list pyval) : result number :=
  match values with
  | [] => Ok total
  | value :: rest =>
      let* x := py_float value in
      let* total' := number_add total (NFloat x) in
      sum_floats total' rest
  end.

Definition parse_taxes (taxes_json : pyval) : result number :=
  let* taxes := Json.loads taxes_json in
  let* values := py_values taxes in
  sum_floats (NInt 0) values.

(** The three variables the loop of [find_and_calculate_room_prices]
    updates. *)
Record prices_state := PricesState {
  cheapest_room : option string;
  cheapest_price : option PyFloat.float;
  room_totals : dict pyval
}.

(** [cheapest_price is None or price < cheapest_price] *)
Definition is_cheaper (price : PyFloat.float) (cheapest : option PyFloat.float) : bool :=
  match cheapest with
  | None => true
  | Some c => PyFloat.ltb price c
  end.

(** One turn of the loop. *)
Definition room_step (total_taxes : number) (st : prices_state)
    (item : string * pyval) : result prices_state :=
  let '(room_type, price) := item in
  let* price := py_float price in
  let* taxes := number_to_float total_taxes in
  let total_price := PyFloat.add price taxes in
  let totals := dict_set room_type (PStr (PyFloat.format_2f total_price)) (room_totals st) in
  if is_cheaper price (cheapest_price st)
  then Ok (PricesState (Some room_type) (Some price) totals)
  else Ok (PricesState (cheapest_room st) (cheapest_price st) totals).

Fixpoint room_loop (total_taxes : number) (st : prices_state)
    (items : list (string * pyval)) : result prices_state :=
  match items with
  | [] => Ok st
  | item :: rest =>
      let* st' := room_step total_taxes st item in
      room_loop total_taxes st' rest
  end.

Definition find_and_calculate_room_prices (shown_prices : pyval) (total_taxes : number)
  : result (option string * option PyFloat.float * dict pyval) :=
  let* items := py_items shown_prices in
  let* st := room_loop total_taxes (PricesState None None []) items in
  Ok (cheapest_room st, cheapest_price st, room_totals st).

(** [with open(file_path, "w") as file: json.dump(output, file, indent=4)] *)
Definition write_output_to_file (output : pyval) (file_path : string) : action unit :=
  fun w => (Ok tt, World (<[file_path := JsonDump 4 output]> (files w)) (console w)).

Definition input_path : string := "Python-task.json".
Definition output_path : string := "hotel_price_analysis_output.json".

(** A room name, or [None], as a value. *)
Definition room_value (room : option string) : pyval :=
  match room with
  | Some r => PStr r
  | None => PNone
  end.

Definition cheapest_info_record (room : option string) (guests : pyval) (price : string)
  : pyval :=
  PDict [("room_type", room_value room);
         ("number_of_guests", guests);
         ("price", PStr price)].

Definition output_record (info : pyval) (totals : dict pyval) : pyval :=
  PDict [("cheapest_price_info", info); ("room_totals", PDict totals)].

Definition main : action unit :=
  do input_json_data <- read_json_file input_path;
  do results <- lift (getitem input_json_data (PStr "assignment_results"));
  do assignment_results <- lift (getitem results (PInt 0));
  do shown_prices <- lift (getitem assignment_results (PStr "shown_price"));
  do number_of_guests <- lift (getitem assignment_results (PStr "number_of_guests"));
  do ext_data <- lift (getitem assignment_results (PStr "ext_data"));
  do taxes_json <- lift (getitem ext_data (PStr "taxes"));
  do total_taxes <- lift (parse_taxes taxes_json);
  do (cheapest_room, cheapest_price, room_totals) <-
       lift (find_and_calculate_room_prices shown_prices total_taxes);
  do price <- lift (format_2f cheapest_price);
  let cheapest_info := cheapest_info_record cheapest_room number_of_guests price in
  let output := output_record cheapest_info room_totals in
  do _ <- write_output_to_file output output_path;
  do shown <- lift (format_2f cheapest_price);
  do _ <- print [PStr "Cheapest Price:"; PStr shown];
  do _ <- print [PStr "Cheapest Price Info:"; cheapest_info];
  print [PStr "Room Totals (Net Price + Taxes):"; PDict room_totals].

(** ** The spec's names for errors *)

(** The error kinds of the specification, and the exception classes that
    its words cover: a file that cannot be opened; text that is not JSON;
    and ValueError, TypeError and OverflowError, the classes [float] raises
    on a value it does not convert.  The script has no exception for an
    empty input, so no class is an [EmptyInputError]; a KeyError, IndexError
    or AttributeError has no kind. *)
Inductive error_kind :=
| FileAccessError | ParseError | ConversionError | EmptyInputError.

Definition kind_of (e : exn) : option error_kind :=
  match e with
  | FileNotFoundError => Some FileAccessError
  | JSONDecodeError => Some ParseError
  | ValueError | TypeError | OverflowError => Some ConversionError
  | KeyError | IndexError | AttributeError => None
  end.

(** ** Example documents *)

(** Writes [text] with every apostrophe turned into a double quote. *)
Definition dq (text : string) : string :=
  string_of_list_ascii
    (map (fun c => if Ascii.eqb c "'" then ascii_of_N 34 else c)
         (list_ascii_of_string text)).

Definition world_of (document : string) : world :=
  World {[ input_path := Text document ]} [].

(** The scenario of the specification. *)
Definition scenario_text : string :=
  dq "{'assignment_results': [{'shown_price': {'Standard': '100.00', 'Deluxe': '80.00'}, 'number_of_guests': 2, 'ext_data': {'taxes': '{\'vat\': \'10\', \'service\': \'5\'}'}}]}".

Definition scenario_prices : dict pyval :=
  [("Standard", PStr "100.00"); ("Deluxe", PStr "80.00")].

Definition scenario_taxes_text : string := dq "{'vat': '10', 'service': '5'}".

Definition scenario_taxes : dict pyval := [("vat", PStr "10"); ("service", PStr "5")].

Definition scenario_entry : pyval :=
  PDict [("shown_price", PDict scenario_prices);
         ("number_of_guests", PInt 2);
         ("ext_data", PDict [("taxes", PStr scenario_taxes_text)])].

Definition scenario_doc : pyval :=
  PDict [("assignment_results", PList [scenario_entry])].

(** The scenario followed by a second assignment result. *)
Definition two_entries_text : string :=
  dq "{'assignment_results': [{'shown_price': {'Standard': '100.00', 'Deluxe': '80.00'}, 'number_of_guests': 2, 'ext_data': {'taxes': '{\'vat\': \'10\', \'service\': \'5\'}'}}, {'shown_price': {'Suite': '1.00'}, 'number_of_guests': 7}]}".

Definition second_entry : pyval :=
  PDict [("shown_price", PDict [("Suite", PStr "1.00")]); ("number_of_guests", PInt 7)].

Definition two_entries_doc : pyval :=
  PDict [("assignment_results", PList [scenario_entry; second_entry])].

(** The document with an empty [shown_price]. *)
Definition empty_prices_text : string :=
  dq "{'assignment_results': [{'shown_price': {}, 'number_of_guests': 2, 'ext_data': {'taxes': '{\'vat\': \'10\'}'}}]}".

Definition empty_prices_doc : pyval :=
  PDict [("assignment_results",
          PList [PDict [("shown_price", PDict []);
                        ("number_of_guests", PInt 2);
                        ("ext_data", PDict [("taxes", PStr (dq "{'vat': '10'}"))])]])].

(** The document with a tax that is no number. *)
Definition bad_tax_text : string :=
  dq "{'assignment_results': [{'shown_price': {'Standard': '100.00'}, 'number_of_guests': 2, 'ext_data': {'taxes': '{\'vat\': \'abc\'}'}}]}".

Definition bad_tax_doc : pyval :=
  PDict [("assignment_results",
          PList [PDict [("shown_price", PDict [("Standard", PStr "100.00")]);
                        ("number_of_guests", PInt 2);
                        ("ext_data", PDict [("taxes", PStr (dq "{'vat': 'abc'}"))])]])].


(** A document whose first entry has no [number_of_guests]. *)
Definition no_guests_text : string :=
  dq "{'assignment_results': [{'shown_price': {'Standard': '100.00'}, 'ext_data': {'taxes': '{}'}}]}".

Definition no_guests_entry : dict pyval :=
  [("shown_price", PDict [("Standard", PStr "100.00")]);
   ("ext_data", PDict [("taxes", PStr "{}")])].

Definition no_guests_doc : pyval :=
  PDict [("assignment_results", PList [PDict no_guests_entry])].

(** A document without assignment results. *)
Definition no_results_text : string := dq "{'assignment_results': []}".

Definition no_results_doc : pyval := PDict [("assignment_results", PList [])].

(** A document whose taxes are an object, not the text of one. *)
Definition taxes_object_text : string :=
  dq "{'assignment_results': [{'shown_price': {'Standard': '100.00'}, 'number_of_guests': 2, 'ext_data': {'taxes': {'vat': '10'}}}]}".

Definition taxes_object_doc : pyval :=
  PDict [("assignment_results",
          PList [PDict [("shown_price", PDict [("Standard", PStr "100.00")]);
                        ("number_of_guests", PInt 2);
                        ("ext_data", PDict [("taxes", PDict [("vat", PStr "10")])])]])].

(** A document whose prices are an array. *)
Definition prices_array_text : string :=
  dq "{'assignment_results': [{'shown_price': ['100.00', '80.00'], 'number_of_guests': 2, 'ext_data': {'taxes': '{\'vat\': \'10\'}'}}]}".

Definition prices_array_doc : pyval :=
  PDict [("assignment_results",
          PList [PDict [("shown_price", PList [PStr "100.00"; PStr "80.00"]);
                        ("number_of_guests", PInt 2);
                        ("ext_data", PDict [("taxes", PStr (dq "{'vat': '10'}"))])]])].

(** Prices with one that is no number, between two that are. *)
Definition bad_prices : dict pyval :=
  [("Standard", PStr "100.00"); ("Deluxe", PStr "cheap"); ("Suite", PStr "300")].

(** Prices with a NaN after the first. *)
Definition nan_prices : dict pyval :=
  [("Standard", PStr "100.00"); ("Deluxe", PStr "nan"); ("Suite", PStr "80.00")].

(** The float 1e308: finite, and more than half the largest float. *)
Definition huge : PyFloat.float := S754_finite false 5010420900022432 971.

(** The floats 5.0, 10.0, 15.0, 80.0 and 100.0. *)
Definition five : PyFloat.float := S754_finite false 5629499534213120 (-50).
Definition ten : PyFloat.float := S754_finite false 5629499534213120 (-49).
Definition fifteen : PyFloat.float := S754_finite false 8444249301319680 (-49).
Definition eighty : PyFloat.float := S754_finite false 5629499534213120 (-46).
Definition hundred : PyFloat.float := S754_finite false 7036874417766400 (-46).

(** ** Notions the properties are stated with *)

(** A float that is not NaN, as a point of the lexicographic order on
    triples of integers: class, exponent, mantissa, the last two negated
    for negative floats. *)
Definition rank (x : PyFloat.float) : Z * Z * Z :=
  match x with
  | S754_zero _ | S754_nan => (0, 0, 0)
  | S754_infinity s => (if s then -2 else 2, 0, 0)
  | S754_finite s m e => if s then (-1, - e, Zneg m) else (1, e, Zpos m)
  end.

Definition lex_compare (a b : Z * Z * Z) : comparison :=
  let '(a1, a2, a3) := a in
  let '(b1, b2, b3) := b in
  match a1 ?= b1 with
  | Eq => match a2 ?= b2 with Eq => a3 ?= b3 | c => c end
  | c => c
  end.

Definition lex_lt (a b : Z * Z * Z) : Prop :=
  let '(a1, a2, a3) := a in
  let '(b1, b2, b3) := b in
  a1 < b1 \/ (a1 = b1 /\ (a2 < b2 \/ (a2 = b2 /\ a3 < b3))).

(** Every price of the mapping converts to a float. *)
Definition prices_convert (shown : dict pyval) : Prop :=
  Forall (fun kv => exists x, py_float (snd kv) = Ok x) shown.

(** The entry of [room_totals] that a turn writes for an item. *)
Definition total_entry (total_taxes : number) (item entry : string * pyval) : Prop :=
  fst entry = fst item /\
  exists x tx,
    py_float (snd item) = Ok x /\ number_to_float total_taxes = Ok tx /\
    snd entry = PStr (PyFloat.format_2f (PyFloat.add x tx)).

(** A value in which every dict has distinct keys, as every Python dict
    has. *)
Fixpoint well_formed (v : pyval) : Prop :=
  match v with
  | PList items =>
      (fix all (l : list pyval) : Prop :=
         match l with
         | [] => True
         | x :: r => well_formed x /\ all r
         end) items
  | PDict entries =>
      List.NoDup (dict_keys entries) /\
      (fix all (l : list (string * pyval)) : Prop :=
         match l with
         | [] => True
         | kv :: r => well_formed (snd kv) /\ all r
         end) entries
  | _ => True
  end.

(** The same for a container the parser has open. *)
Definition frame_well_formed (f : Json.frame) : Prop :=
  match f with
  | Json.FArray items => Forall well_formed items
  | Json.FObject d | Json.FMember d _ =>
      List.NoDup (dict_keys d) /\ Forall (fun kv => well_formed (snd kv)) d
  end.

Definition mode_well_formed (m : Json.mode) : Prop :=
  match m with
  | Json.MDone v => well_formed v
  | _ => True
  end.





(** A string that ends in a point and exactly two decimal digits. *)
Definition two_decimals (s : string) : Prop :=
  exists whole d1 d2,
    s = (whole ++ "." ++ String d1 (String d2 EmptyString))%string /\
    PyFloat.is_digit d1 = true /\ PyFloat.is_digit d2 = true.

(** The sum of floats in float arithmetic, from left to right. *)
Definition float_sum (xs : list PyFloat.float) : PyFloat.float :=
  fold_left PyFloat.add xs PyFloat.pos_zero.

(** Values and the floats they convert to. *)
Definition converted (values : list pyval) (xs : list PyFloat.float) : Prop :=
  Forall2 (fun v x => py_float v = Ok x) values xs.

(** Steps 1 to 6 of [main] change nothing in the world; they are gathered
    here as functions of the document, and [main_run] shows that [main] is
    these steps followed by the write and the three prints. *)

(** What [main] reads from the first assignment result. *)
Definition entry_fields (assignment_results : pyval) : result (pyval * pyval * pyval) :=
  let* shown_prices := getitem assignment_results (PStr "shown_price") in
  let* number_of_guests := getitem assignment_results (PStr "number_of_guests") in
  let* ext_data := getitem assignment_results (PStr "ext_data") in
  let* taxes_json := getitem ext_data (PStr "taxes") in
  Ok (shown_prices, number_of_guests, taxes_json).

(** Step 2, with the subscripts of step 3. *)
Definition extract_fields (input_json_data : pyval) : result (pyval * pyval * pyval) :=
  let* results := getitem input_json_data (PStr "assignment_results") in
  let* assignment_results := getitem results (PInt 0) in
  entry_fields assignment_results.

(** Steps 3 to 5: the record of the cheapest room, the totals, and the
    formatted price. *)
Definition prepare_output (fields : pyval * pyval * pyval)
  : result (pyval * dict pyval * string) :=
  let '(shown_prices, number_of_guests, taxes_json) := fields in
  let* total_taxes := parse_taxes taxes_json in
  let* (room, price, totals) := find_and_calculate_room_prices shown_prices total_taxes in
  let* shown := format_2f price in
  Ok (cheapest_info_record room number_of_guests shown, totals, shown).

(** Steps 7 and 8: the file written and the lines printed. *)
Definition report (info : pyval) (totals : dict pyval) (shown : string) (w : world)
  : world :=
  World (<[output_path := JsonDump 4 (output_record info totals)]> (files w))
        (console w ++ [[PStr "Cheapest Price:"; PStr shown];
                       [PStr "Cheapest Price Info:"; info];
                       [PStr "Room Totals (Net Price + Taxes):"; PDict totals]]).

(** The stages before the writer, and an error one of them raises. *)
Inductive stage_fails (w : world) (e : exn) : Prop :=
| Loading_fails :
    fst (read_json_file input_path w) = Raise e -> stage_fails w e
| Extraction_fails doc :
    fst (read_json_file input_path w) = Ok doc ->
    extract_fields doc = Raise e -> stage_fails w e
| Tax_aggregation_fails doc shown guests taxes_json :
    fst (read_json_file input_path w) = Ok doc ->
    extract_fields doc = Ok (shown, guests, taxes_json) ->
    parse_taxes taxes_json = Raise e -> stage_fails w e
| Price_resolution_fails doc shown guests taxes_json total :
    fst (read_json_file input_path w) = Ok doc ->
    extract_fields doc = Ok (shown, guests, taxes_json) ->
    parse_taxes taxes_json = Ok total ->
    find_and_calculate_room_prices shown total = Raise e -> stage_fails w e.

(** A document that is an object and lacks a field [main] subscripts:
    [assignment_results] itself, a field of the first entry, or [taxes]
    inside [ext_data]. *)
Inductive lacks_a_field : pyval -> Prop :=
| No_assignment_results top :
    dict_get "assignment_results" top = None ->
    lacks_a_field (PDict top)
| No_entry_field top entry rest key :
    dict_get "assignment_results" top = Some (PList (PDict entry :: rest)) ->
    In key ["shown_price"; "number_of_guests"; "ext_data"] ->
    dict_get key entry = None ->
    lacks_a_field (PDict top)
| No_taxes top entry rest ext :
    dict_get "assignment_results" top = Some (PList (PDict entry :: rest)) ->
    dict_get "ext_data" entry = Some (PDict ext) ->
    dict_get "taxes" ext = None ->
    lacks_a_field (PDict top).

(** Tactics for closed goals on the example documents. *)
Ltac by_computation := vm_compute; reflexivity.

Ltac distinct_keys :=
  repeat (constructor; [simpl; intuition discriminate | ]); constructor.

Ltac all_convert :=
  repeat (constructor; [eexists; by_computation | ]); constructor.

(** * Properties *)

(** ** The order of floats *)

Module FloatOrder.
Import PyFloat.

Lemma lex_compare_lt a b : lex_compare a b = Lt <-> lex_lt a b.
Proof.
  destruct a as [[a1 a2] a3], b as [[b1 b2] b3]; simpl.
  destruct (Z.compare_spec a1 b1) as [E1 | E1 | E1],
           (Z.compare_spec a2 b2) as [E2 | E2 | E2],
           (Z.compare_spec a3 b3) as [E3 | E3 | E3];
    split; intros Hc; try discriminate; try reflexivity; lia.
Qed.

Lemma lex_compare_eq a b : lex_compare a b = Eq <-> a = b.
Proof.
  destruct a as [[a1 a2] a3], b as [[b1 b2] b3]; simpl.
  destruct (Z.compare_spec a1 b1) as [E1 | E1 | E1],
           (Z.compare_spec a2 b2) as [E2 | E2 | E2],
           (Z.compare_spec a3 b3) as [E3 | E3 | E3];
    split; intros Hc; try discriminate; try reflexivity;
    try (inversion Hc; lia); subst; reflexivity.
Qed.

Lemma lex_compare_gt a b : lex_compare a b = Gt <-> lex_lt b a.
Proof.
  destruct a as [[a1 a2] a3], b as [[b1 b2] b3]; simpl.
  destruct (Z.compare_spec a1 b1) as [E1 | E1 | E1],
           (Z.compare_spec a2 b2) as [E2 | E2 | E2],
           (Z.compare_spec a3 b3) as [E3 | E3 | E3];
    split; intros Hc; try discriminate; try reflexivity; lia.
Qed.

Lemma compare_rank x y :
  is_nan x = false -> is_nan y = false ->
  SFcompare x y = Some (lex_compare (rank x) (rank y)).
Proof.
  destruct x as [sx | sx | | sx mx ex], y as [sy | sy | | sy my ey];
    simpl; intros Hx Hy; try discriminate;
    try (destruct sx; reflexivity); try (destruct sy; reflexivity);
    try (destruct sx, sy; reflexivity).
  destruct sx, sy; simpl; try reflexivity.
  rewrite Z.compare_opp, (Z.compare_antisym ex ey).
  destruct (ex ?= ey); reflexivity.
Qed.

Lemma compare_nan_l y : SFcompare S754_nan y = None.
Proof. destruct y; reflexivity. Qed.

Lemma compare_nan_r x : SFcompare x S754_nan = None.
Proof. destruct x; reflexivity. Qed.

Lemma ltb_rank x y :
  ltb x y = true <->
  is_nan x = false /\ is_nan y = false /\ lex_lt (rank x) (rank y).
Proof.
  unfold ltb, SFltb.
  destruct (is_nan x) eqn:Hx.
  { destruct x; try discriminate. rewrite compare_nan_l. split; [discriminate | ].
    intros (H & _); discriminate. }
  destruct (is_nan y) eqn:Hy.
  { destruct y; try discriminate. rewrite compare_nan_r. split; [discriminate | ].
    intros (_ & H & _); discriminate. }
  rewrite (compare_rank x y Hx Hy), <- lex_compare_lt.
  destruct (lex_compare (rank x) (rank y)); split; intros H;
    try discriminate; try reflexivity; try (repeat split; reflexivity);
    destruct H as (_ & _ & H); discriminate.
Qed.

Lemma eqb_rank x y :
  eqb x y = true <->
  is_nan x = false /\ is_nan y = false /\ rank x = rank y.
Proof.
  unfold eqb, SFeqb.
  destruct (is_nan x) eqn:Hx.
  { destruct x; try discriminate. rewrite compare_nan_l. split; [discriminate | ].
    intros (H & _); discriminate. }
  destruct (is_nan y) eqn:Hy.
  { destruct y; try discriminate. rewrite compare_nan_r. split; [discriminate | ].
    intros (_ & H & _); discriminate. }
  rewrite (compare_rank x y Hx Hy), <- lex_compare_eq.
  destruct (lex_compare (rank x) (rank y)); split; intros H;
    try discriminate; try reflexivity; try (repeat split; reflexivity);
    destruct H as (_ & _ & H); discriminate.
Qed.

Lemma leb_rank x y :
  leb x y = true <->
  is_nan x = false /\ is_nan y = false /\ ~ lex_lt (rank y) (rank x).
Proof.
  unfold leb, SFleb.
  destruct (is_nan x) eqn:Hx.
  { destruct x; try discriminate. rewrite compare_nan_l. split; [discriminate | ].
    intros (H & _); discriminate. }
  destruct (is_nan y) eqn:Hy.
  { destruct y; try discriminate. rewrite compare_nan_r. split; [discriminate | ].
    intros (_ & H & _); discriminate. }
  rewrite (compare_rank x y Hx Hy), <- lex_compare_gt.
  destruct (lex_compare (rank x) (rank y)); split; intros H;
    try discriminate; try reflexivity;
    try (repeat split; try reflexivity; discriminate);
    destruct H as (_ & _ & H); exfalso; apply H; reflexivity.
Qed.

Lemma lex_lt_trans a b c : lex_lt a b -> lex_lt b c -> lex_lt a c.
Proof.
  destruct a as [[a1 a2] a3], b as [[b1 b2] b3], c as [[c1 c2] c3]; simpl; lia.
Qed.

Lemma lex_lt_irrefl a : ~ lex_lt a a.
Proof. destruct a as [[a1 a2] a3]; simpl; lia. Qed.

Lemma lex_total a b : lex_lt a b \/ a = b \/ lex_lt b a.
Proof.
  destruct a as [[a1 a2] a3], b as [[b1 b2] b3]; simpl.
  destruct (Z.lt_total a1 b1) as [? | [? | ?]];
    destruct (Z.lt_total a2 b2) as [? | [? | ?]];
    destruct (Z.lt_total a3 b3) as [? | [? | ?]]; subst; auto; lia.
Qed.

(** [<] is transitive on all floats, NaN included. *)
Lemma ltb_trans x y z : ltb x y = true -> ltb y z = true -> ltb x z = true.
Proof.
  rewrite !ltb_rank. intros (Hx & _ & Hxy) (_ & Hz & Hyz).
  repeat split; trivial. eapply lex_lt_trans; eassumption.
Qed.

(** [x == y] and [y < z] give [x < z]. *)
Lemma eqb_ltb_trans x y z : eqb x y = true -> ltb y z = true -> ltb x z = true.
Proof.
  rewrite eqb_rank, !ltb_rank. intros (Hx & _ & Hxy) (_ & Hz & Hyz).
  repeat split; trivial. rewrite Hxy. exact Hyz.
Qed.

(** [x < y] excludes [y < x] and [y == x]. *)
Lemma ltb_asym x y : ltb x y = true -> ltb y x = false /\ eqb y x = false.
Proof.
  intros H. apply ltb_rank in H as (Hx & Hy & Hlt). split.
  - destruct (ltb y x) eqn:E; trivial.
    apply ltb_rank in E as (_ & _ & E).
    exfalso. apply (lex_lt_irrefl (rank x)). eapply lex_lt_trans; eassumption.
  - destruct (eqb y x) eqn:E; trivial.
    apply eqb_rank in E as (_ & _ & E). rewrite E in Hlt.
    exfalso. exact (lex_lt_irrefl _ Hlt).
Qed.

Lemma ltb_irrefl x : ltb x x = false.
Proof.
  destruct (ltb x x) eqn:E; trivial. destruct (ltb_asym x x E) as [H _]. congruence.
Qed.

(** Away from NaN the order is total. *)
Lemma not_ltb_leb x y :
  is_nan x = false -> is_nan y = false -> ltb x y = false -> leb y x = true.
Proof.
  intros Hx Hy H. apply leb_rank. repeat split; trivial.
  intros Hlt. assert (ltb x y = true) by (apply ltb_rank; auto). congruence.
Qed.

Lemma not_ltb_not_eqb_ltb x y :
  is_nan x = false -> is_nan y = false ->
  ltb x y = false -> eqb x y = false -> ltb y x = true.
Proof.
  intros Hx Hy Hlt Heq. apply ltb_rank. repeat split; trivial.
  destruct (lex_total (rank x) (rank y)) as [H | [H | H]]; trivial.
  - assert (ltb x y = true) by (apply ltb_rank; auto). congruence.
  - assert (eqb x y = true) by (apply eqb_rank; auto). congruence.
Qed.

End FloatOrder.

(** ** Dictionaries *)

Section DictFacts.
Context {V : Type}.
Implicit Types (d : dict V) (k : string) (v : V).

Lemma dict_set_fresh k v d :
  ~ In k (dict_keys d) -> dict_set k v d = d ++ [(k, v)].
Proof.
  induction d as [| [k' v'] d IH]; simpl; intros Hk; [reflexivity | ].
  destruct (String.eqb_spec k' k) as [-> | _].
  - exfalso. apply Hk. now left.
  - rewrite IH; [reflexivity | ]. intros Hin. apply Hk. now right.
Qed.

Lemma dict_get_In k v d :
  List.NoDup (dict_keys d) -> In (k, v) d -> dict_get k d = Some v.
Proof.
  induction d as [| [k' v'] d IH]; simpl; intros Hnd Hin; [contradiction | ].
  inversion Hnd as [| ? ? Hk' Hnd']; subst.
  destruct Hin as [Heq | Hin].
  - inversion Heq; subst. now rewrite String.eqb_refl.
  - destruct (String.eqb_spec k' k) as [-> | _]; [ | now apply IH].
    exfalso. apply Hk'. exact (in_map fst d (k, v) Hin).
Qed.

Lemma dict_get_app_fresh k d d' :
  ~ In k (dict_keys d) -> dict_get k (d ++ d') = dict_get k d'.
Proof.
  induction d as [| [k' v'] d IH]; simpl; intros Hk; [reflexivity | ].
  destruct (String.eqb_spec k' k) as [-> | _].
  - exfalso. apply Hk. now left.
  - apply IH. intros Hin. apply Hk. now right.
Qed.
End DictFacts.

(** ** Decoded values have dicts with distinct keys *)

Lemma well_formed_list items :
  well_formed (PList items) <-> Forall well_formed items.
Proof.
  induction items as [| x items IH]; simpl.
  - split; auto.
  - simpl in IH. rewrite IH. split.
    + intros [Hx Hall]. now constructor.
    + intros H. inversion H; subst. auto.
Qed.

Lemma well_formed_dict entries :
  well_formed (PDict entries) <->
  List.NoDup (dict_keys entries) /\ Forall (fun kv => well_formed (snd kv)) entries.
Proof.
  simpl. apply and_iff_compat_l.
  induction entries as [| kv entries IH].
  - split; auto.
  - rewrite IH. split.
    + intros [Hx Hall]. now constructor.
    + intros H. inversion H; subst. auto.
Qed.

Lemma dict_set_keys {V : Type} (k : string) (v : V) (d : dict V) :
  In k (dict_keys d) /\ dict_keys (dict_set k v d) = dict_keys d \/
  ~ In k (dict_keys d) /\ dict_keys (dict_set k v d) = dict_keys d ++ [k].
Proof.
  induction d as [| [k' v'] d IH]; simpl.
  - right. split; [tauto | reflexivity].
  - destruct (String.eqb_spec k' k) as [-> | Hne]; simpl.
    + left. split; [now left | reflexivity].
    + destruct IH as [[Hin Heq] | [Hout Heq]]; rewrite Heq.
      * left. split; [now right | reflexivity].
      * right. split; [ | reflexivity]. intros [? | ?]; [congruence | tauto].
Qed.

Lemma dict_set_distinct {V : Type} (k : string) (v : V) (d : dict V) :
  List.NoDup (dict_keys d) -> List.NoDup (dict_keys (dict_set k v d)).
Proof.
  intros Hnd. destruct (dict_set_keys k v d) as [[_ ->] | [Hout ->]]; trivial.
  induction (dict_keys d) as [| k' keys IH]; simpl.
  - constructor; [intros [] | constructor].
  - inversion Hnd as [| ? ? Hk' Hnd']; subst. constructor.
    + rewrite in_app_iff. intros [? | [-> | []]]; [tauto | ]. apply Hout. now left.
    + apply IH; trivial. intros Hin. apply Hout. now right.
Qed.

Lemma dict_set_all {V : Type} (P : V -> Prop) (k : string) (v : V) (d : dict V) :
  P v -> Forall (fun kv => P (snd kv)) d ->
  Forall (fun kv => P (snd kv)) (dict_set k v d).
Proof.
  intros Hv. induction 1 as [| [k' v'] d Hh Ht IH]; simpl.
  - repeat constructor. exact Hv.
  - destruct (String.eqb k' k); constructor; trivial.
Qed.

Lemma dict_get_all {V : Type} (P : V -> Prop) (k : string) (v : V) (d : dict V) :
  Forall (fun kv => P (snd kv)) d -> dict_get k d = Some v -> P v.
Proof.
  induction 1 as [| [k' v'] d Hh _ IH]; simpl; [discriminate | ].
  destruct (String.eqb k' k); [ | exact IH]. intros H; inversion H; subst. exact Hh.
Qed.

Lemma word_well_formed w v : Json.word w = Some v -> well_formed v.
Proof.
  unfold Json.word.
  repeat match goal with
         | |- context [if ?c then _ else _] => destruct c
         end;
    try (intros H; inversion H; exact I).
  unfold Json.number.
  repeat match goal with
         | |- context [match ?x with _ => _ end] => destruct x
         end;
    intros H; inversion H; exact I.
Qed.

Lemma complete_well_formed v stack m stack' :
  well_formed v -> Forall frame_well_formed stack ->
  Json.complete v stack = Some (m, stack') ->
  mode_well_formed m /\ Forall frame_well_formed stack'.
Proof.
  intros Hv Hst. unfold Json.complete.
  destruct Hst as [| f stack Hf Hst]; [intros H; inversion H; subst; simpl; auto | ].
  destruct f as [items | d | d k]; intros H; inversion H; subst; simpl in *.
  - split; [exact I | ]. constructor; [ | exact Hst]. simpl. now constructor.
  - split; [exact I | ]. constructor; [ | exact Hst]. simpl. destruct Hf as [Hnd Hall].
    split; [now apply dict_set_distinct | now apply dict_set_all].
Qed.

Lemma parse_step_well_formed m stack t m' stack' :
  Forall frame_well_formed stack ->
  Json.parse_step m stack t = Some (m', stack') ->
  mode_well_formed m' /\ Forall frame_well_formed stack'.
Proof.
  intros Hst.
  assert (forall st, Forall frame_well_formed st ->
            Json.start_value t st = Some (m', stack') ->
            mode_well_formed m' /\ Forall frame_well_formed stack') as Hstart.
  { intros st Hs. unfold Json.start_value. destruct t; try discriminate.
    - intros H; inversion H; subst. split; [exact I | ].
      constructor; [ | exact Hs]. simpl. split; constructor.
    - intros H; inversion H; subst. split; [exact I | ].
      constructor; [ | exact Hs]. simpl. constructor.
    - apply complete_well_formed; [exact I | exact Hs].
    - destruct (Json.word w) as [v | ] eqn:Hw; [ | discriminate].
      apply complete_well_formed; [ | exact Hs]. eapply word_well_formed; eassumption. }
  assert (Json.close_array stack = Some (m', stack') ->
          mode_well_formed m' /\ Forall frame_well_formed stack') as Harr.
  { unfold Json.close_array. destruct Hst as [| [items | d | d k] st Hf Hs];
      try discriminate.
    apply complete_well_formed; [ | exact Hs].
    apply well_formed_list. simpl in Hf.
    apply List.Forall_forall. intros x Hx. apply in_rev in Hx.
    rewrite List.Forall_forall in Hf. now apply Hf. }
  assert (Json.close_object stack = Some (m', stack') ->
          mode_well_formed m' /\ Forall frame_well_formed stack') as Hobj.
  { unfold Json.close_object. destruct Hst as [| [items | d | d k] st Hf Hs];
      try discriminate.
    apply complete_well_formed; [ | exact Hs]. now apply well_formed_dict. }
  assert (Json.read_key t stack = Some (m', stack') ->
          mode_well_formed m' /\ Forall frame_well_formed stack') as Hkey.
  { unfold Json.read_key. destruct t; try discriminate.
    destruct Hst as [| [items | d | d k] st Hf Hs]; try discriminate.
    intros H; inversion H; subst. split; [exact I | ]. now constructor. }
  specialize (Hstart stack Hst).
  unfold Json.parse_step. destruct m; try discriminate; auto.
  - destruct t; auto.
  - destruct t; auto.
  - destruct t; try discriminate.
    intros H; inversion H; subst. split; [exact I | exact Hst].
  - destruct t; try discriminate; auto.
    destruct stack as [| [items | d | d k] st]; try discriminate;
      intros H; inversion H; subst; split; trivial; exact I.
Qed.

Lemma parse_well_formed toks :
  forall m stack v,
    mode_well_formed m -> Forall frame_well_formed stack ->
    Json.parse m stack toks = Some v -> well_formed v.
Proof.
  induction toks as [| t toks IH]; simpl; intros m stack v Hm Hst.
  - destruct m; try discriminate. intros H; inversion H; subst. exact Hm.
  - destruct (Json.parse_step m stack t) as [[m' stack'] | ] eqn:Hstep; [ | discriminate].
    destruct (parse_step_well_formed _ _ _ _ _ Hst Hstep) as [Hm' Hst'].
    now apply IH.
Qed.

(** Whatever [json.loads] returns has dicts with distinct keys only. *)
Lemma decode_well_formed s v : Json.decode s = Some v -> well_formed v.
Proof.
  unfold Json.decode. destruct (Json.lex _ _ _) as [toks | ]; [ | discriminate].
  apply parse_well_formed; [exact I | constructor].
Qed.

Lemma seq_index_In {A : Type} (l : list A) (i : Z) (x : A) :
  seq_index l i = Ok x -> In x l.
Proof.
  unfold seq_index. destruct (_ && _); [ | discriminate].
  destruct (nth_error l _) eqn:E; simpl; [ | discriminate].
  intros H; inversion H; subst. eapply nth_error_In; eassumption.
Qed.

(** A subscript of such a value is such a value. *)
Lemma getitem_well_formed obj key v :
  well_formed obj -> getitem obj key = Ok v -> well_formed v.
Proof.
  intros Hobj. destruct obj as [| b | z | f | s | items | d]; simpl; try discriminate.
  - destruct key; try discriminate;
      destruct (seq_index _ _); simpl; try discriminate;
      intros H; inversion H; exact I.
  - apply well_formed_list in Hobj. rewrite List.Forall_forall in Hobj.
    destruct key; try discriminate; intros H; apply seq_index_In in H; auto.
  - apply well_formed_dict in Hobj as [_ Hall].
    destruct key; try discriminate.
    destruct (dict_get s d) as [x | ] eqn:Hget; simpl; [ | discriminate].
    intros H; inversion H; subst. exact (dict_get_all well_formed s v d Hall Hget).
Qed.

(** The [shown_price] of a decoded document, when it is a dict, has
    distinct keys. *)
Lemma shown_prices_distinct_keys text doc shown guests taxes_json :
  Json.decode text = Some doc ->
  extract_fields doc = Ok (PDict shown, guests, taxes_json) ->
  List.NoDup (dict_keys shown).
Proof.
  intros Hdec Hfields. apply decode_well_formed in Hdec.
  unfold extract_fields, entry_fields in Hfields.
  destruct (getitem doc _) as [results | ] eqn:H1; cbn [bind] in Hfields; [ | discriminate].
  destruct (getitem results _) as [entry | ] eqn:H2; cbn [bind] in Hfields; [ | discriminate].
  destruct (getitem entry (PStr "shown_price")) as [sh | ] eqn:H3;
    cbn [bind] in Hfields; [ | discriminate].
  destruct (getitem entry (PStr "number_of_guests")) as [g | ];
    cbn [bind] in Hfields; [ | discriminate].
  destruct (getitem entry (PStr "ext_data")) as [ext | ];
    cbn [bind] in Hfields; [ | discriminate].
  destruct (getitem ext (PStr "taxes")) as [tj | ];
    cbn [bind] in Hfields; [ | discriminate].
  inversion Hfields; subst.
  apply getitem_well_formed in H1; trivial.
  apply getitem_well_formed in H2; trivial.
  apply getitem_well_formed in H3; trivial.
  now apply well_formed_dict in H3.
Qed.

(** ** The loop of [find_and_calculate_room_prices] *)

Section RoomLoop.
Variable total_taxes : number.

(** What one turn does, when it does not raise. *)
Lemma room_step_inv st k v st1 :
  room_step total_taxes st (k, v) = Ok st1 ->
  exists x tx,
    py_float v = Ok x /\ number_to_float total_taxes = Ok tx /\
    room_totals st1 =
      dict_set k (PStr (PyFloat.format_2f (PyFloat.add x tx))) (room_totals st) /\
    ((is_cheaper x (cheapest_price st) = true /\
      cheapest_room st1 = Some k /\ cheapest_price st1 = Some x) \/
     (is_cheaper x (cheapest_price st) = false /\
      cheapest_room st1 = cheapest_room st /\
      cheapest_price st1 = cheapest_price st)).
Proof.
  unfold room_step.
  destruct (py_float v) as [x | e]; simpl; [ | discriminate].
  destruct (number_to_float total_taxes) as [tx | e]; simpl; [ | discriminate].
  intros H. exists x, tx.
  destruct (is_cheaper x (cheapest_price st)) eqn:Hc;
    inversion H; subst; simpl; auto 10.
Qed.

(** A turn raises only when a conversion does. *)
Lemma room_step_ok st k v x tx :
  py_float v = Ok x -> number_to_float total_taxes = Ok tx ->
  exists st1, room_step total_taxes st (k, v) = Ok st1.
Proof.
  intros Hx Ht. unfold room_step. rewrite Hx, Ht; simpl.
  destruct (is_cheaper x (cheapest_price st)); eauto.
Qed.

Lemma room_loop_ok items tx :
  number_to_float total_taxes = Ok tx ->
  Forall (fun kv => exists x, py_float (snd kv) = Ok x) items ->
  forall st, exists st', room_loop total_taxes st items = Ok st'.
Proof.
  intros Ht. induction 1 as [| [k v] items [x Hx] _ IH]; intros st; cbn [room_loop].
  - eauto.
  - destruct (room_step_ok st k v x tx Hx Ht) as [st1 ->]; cbn [bind]. apply IH.
Qed.

(** With distinct keys, none of them yet in [room_totals], the loop
    appends one entry per item, in order. *)
Lemma room_loop_totals items :
  forall st st',
    room_loop total_taxes st items = Ok st' ->
    List.NoDup (dict_keys items) ->
    (forall k, In k (dict_keys items) -> ~ In k (dict_keys (room_totals st))) ->
    exists added,
      room_totals st' = room_totals st ++ added /\
      Forall2 (total_entry total_taxes) items added.
Proof.
  induction items as [| [k v] items IH]; cbn [room_loop]; intros st st' Hrun Hnd Hfresh.
  - inversion Hrun; subst. exists []. rewrite app_nil_r. split; constructor.
  - destruct (room_step total_taxes st (k, v)) as [st1 | e] eqn:Hstep;
      cbn [bind] in Hrun; [ | discriminate].
    apply room_step_inv in Hstep as (x & tx & Hx & Ht & Htot & _).
    inversion Hnd as [| ? ? Hk Hnd']; subst.
    rewrite dict_set_fresh in Htot by (apply Hfresh; now left).
    destruct (IH st1 st' Hrun Hnd') as (added & Heq & Hall).
    + intros k' Hk'. rewrite Htot. unfold dict_keys. rewrite map_app, in_app_iff.
      simpl. intros [Hin | [-> | []]].
      * apply (Hfresh k'); [now right | exact Hin].
      * exact (Hk Hk').
    + exists ((k, PStr (PyFloat.format_2f (PyFloat.add x tx))) :: added). split.
      * rewrite Heq, Htot, <- app_assoc. reflexivity.
      * constructor; [ | exact Hall]. split; [reflexivity | ]. exists x, tx. auto.
Qed.

(** Either no item replaces the cheapest room, or the last one that does
    is the first item with a price no later item goes below. *)
Lemma room_loop_cheapest items :
  forall st st',
    room_loop total_taxes st items = Ok st' ->
    (cheapest_room st' = cheapest_room st /\
     cheapest_price st' = cheapest_price st /\
     Forall (fun kv => forall x, py_float (snd kv) = Ok x ->
               is_cheaper x (cheapest_price st) = false) items)
    \/
    (exists before r v after p,
       items = before ++ (r, v) :: after /\
       py_float v = Ok p /\
       cheapest_room st' = Some r /\ cheapest_price st' = Some p /\
       is_cheaper p (cheapest_price st) = true /\
       Forall (fun kv => forall x, py_float (snd kv) = Ok x ->
                 PyFloat.ltb x p = false /\ PyFloat.eqb x p = false) before /\
       Forall (fun kv => forall x, py_float (snd kv) = Ok x ->
                 PyFloat.ltb x p = false) after).
Proof.
  induction items as [| [k v] items IH]; cbn [room_loop]; intros st st' Hrun.
  - inversion Hrun; subst. left. auto.
  - destruct (room_step total_taxes st (k, v)) as [st1 | e] eqn:Hstep;
      cbn [bind] in Hrun; [ | discriminate].
    apply room_step_inv in Hstep as (x & tx & Hx & Ht & _ & Hcase).
    destruct (IH st1 st' Hrun) as
      [(Hr & Hp & Hall) | (before & r & w & after & p & Hsplit & Hw & Hr & Hp & Hc & Hb & Ha)];
      destruct Hcase as [(Hcheap & Hr1 & Hp1) | (Hcheap & Hr1 & Hp1)].
    + (* this item is the last to replace the cheapest room *)
      right. exists [], k, v, items, x. rewrite Hp1 in Hall. simpl in Hall.
      repeat split; try congruence. constructor.
    + (* nothing replaces it *)
      left. repeat split; try congruence.
      constructor; [ | now rewrite <- Hp1].
      simpl. intros y Hy. congruence.
    + (* replaced here, and again later *)
      right. exists ((k, v) :: before), r, w, after, p.
      rewrite Hp1 in Hc. simpl in Hc.
      repeat split; trivial.
      * now rewrite Hsplit.
      * destruct (cheapest_price st) as [c | ]; [ | reflexivity].
        simpl in *. eapply FloatOrder.ltb_trans; eassumption.
      * constructor; [ | exact Hb]. simpl. intros y Hy.
        assert (y = x) by congruence. subst y.
        now apply FloatOrder.ltb_asym.
    + (* kept here, replaced later *)
      right. exists ((k, v) :: before), r, w, after, p.
      rewrite Hp1 in Hc.
      repeat split; trivial.
      * now rewrite Hsplit.
      * constructor; [ | exact Hb]. simpl. intros y Hy.
        assert (y = x) by congruence. subst y.
        destruct (cheapest_price st) as [c | ]; [ | discriminate].
        simpl in *. split.
        -- destruct (PyFloat.ltb x p) eqn:E; trivial.
           rewrite (FloatOrder.ltb_trans _ _ _ E Hc) in Hcheap. discriminate.
        -- destruct (PyFloat.eqb x p) eqn:E; trivial.
           rewrite (FloatOrder.eqb_ltb_trans _ _ _ E Hc) in Hcheap. discriminate.
Qed.
End RoomLoop.

(** ** The [.2f] format *)

Lemma digit_char_is_digit d :
  0 <= d < 10 -> PyFloat.is_digit (PyFloat.digit_char d) = true.
Proof.
  intros Hd.
  assert (d = 0 \/ d = 1 \/ d = 2 \/ d = 3 \/ d = 4 \/
          d = 5 \/ d = 6 \/ d = 7 \/ d = 8 \/ d = 9) as Hcases by lia.
  repeat (destruct Hcases as [-> | Hcases]; [reflexivity | ]).
  subst d. reflexivity.
Qed.

Lemma string_app_assoc (a b c : string) :
  ((a ++ b) ++ c)%string = (a ++ b ++ c)%string.
Proof.
  induction a as [| ch a IH]; [reflexivity | ].
  change (String ch ((a ++ b) ++ c) = String ch (a ++ b ++ c))%string.
  now f_equal.
Qed.

(** A float that is not finite is shown without digits. *)
Lemma format_2f_not_finite x :
  PyFloat.is_finite x = false ->
  PyFloat.format_2f x = "inf" \/ PyFloat.format_2f x = "-inf" \/
  PyFloat.format_2f x = "nan".
Proof.
  destruct x as [s | [ | ] | | s m e]; simpl; try discriminate; auto.
Qed.

Lemma inf_has_no_decimals : ~ two_decimals "inf".
Proof.
  intros (whole & d1 & d2 & H & _).
  destruct whole as [| a [| b [| c [| d whole]]]]; simpl in H; inversion H.
Qed.

(** A finite float is shown with exactly two digits after the point. *)
Lemma format_2f_two_decimals x :
  PyFloat.is_finite x = true -> two_decimals (PyFloat.format_2f x).
Proof.
  destruct x as [s | s | | s m e]; simpl; try discriminate; intros _.
  - exists (PyFloat.sign_string s ++ "0")%string, "0"%char, "0"%char.
    destruct s; repeat split; reflexivity.
  - set (n := PyFloat.hundredths m e).
    exists (PyFloat.sign_string s ++ PyFloat.decimal (n / 100))%string,
           (PyFloat.digit_char (n mod 100 / 10)),
           (PyFloat.digit_char ((n mod 100) mod 10)).
    assert (0 <= n mod 100 < 100) as Hr by (apply Z.mod_pos_bound; lia).
    repeat split.
    + unfold PyFloat.two_digits. now rewrite string_app_assoc.
    + apply digit_char_is_digit. split.
      * apply Z.div_pos; lia.
      * apply Z.div_lt_upper_bound; lia.
    + apply digit_char_is_digit. apply Z.mod_pos_bound. lia.
Qed.

(** ** [find_and_calculate_room_prices] *)

Lemma find_unfold shown total_taxes :
  find_and_calculate_room_prices (PDict shown) total_taxes =
  let* st := room_loop total_taxes (PricesState None None []) shown in
  Ok (cheapest_room st, cheapest_price st, room_totals st).
Proof. reflexivity. Qed.

(** Without conversion errors the function returns. *)
Lemma find_returns shown total_taxes tx :
  number_to_float total_taxes = Ok tx -> prices_convert shown ->
  exists st,
    room_loop total_taxes (PricesState None None []) shown = Ok st /\
    find_and_calculate_room_prices (PDict shown) total_taxes =
      Ok (cheapest_room st, cheapest_price st, room_totals st).
Proof.
  intros Ht Hconv.
  destruct (room_loop_ok total_taxes shown tx Ht Hconv (PricesState None None []))
    as [st Hst].
  exists st. split; [exact Hst | ]. rewrite find_unfold, Hst. reflexivity.
Qed.

Lemma find_inv shown total_taxes room price totals :
  find_and_calculate_room_prices (PDict shown) total_taxes = Ok (room, price, totals) ->
  exists st,
    room_loop total_taxes (PricesState None None []) shown = Ok st /\
    room = cheapest_room st /\ price = cheapest_price st /\ totals = room_totals st.
Proof.
  rewrite find_unfold.
  destruct (room_loop total_taxes _ shown) as [st | e]; cbn [bind]; [ | discriminate].
  intros H. inversion H; subst. eauto.
Qed.

(** Whatever the function returns for a mapping with distinct keys has the
    keys of the mapping, in its order, each with its formatted total. *)
Lemma find_totals shown total_taxes room price totals :
  List.NoDup (dict_keys shown) ->
  find_and_calculate_room_prices (PDict shown) total_taxes = Ok (room, price, totals) ->
  Forall2 (total_entry total_taxes) shown totals.
Proof.
  intros Hnd Hfind. apply find_inv in Hfind as (st & Hloop & _ & _ & ->).
  destruct (room_loop_totals total_taxes shown _ _ Hloop Hnd) as (added & Heq & Hall).
  - intros k _ [].
  - simpl in Heq. now rewrite Heq.
Qed.

Lemma total_entries_keys total_taxes shown totals :
  Forall2 (total_entry total_taxes) shown totals ->
  dict_keys totals = dict_keys shown.
Proof.
  induction 1 as [| item entry shown totals [Hk _] _ IH]; simpl; [reflexivity | ].
  now rewrite Hk, IH.
Qed.

Lemma total_entries_In total_taxes shown totals k v :
  Forall2 (total_entry total_taxes) shown totals ->
  In (k, v) shown ->
  exists x tx,
    py_float v = Ok x /\ number_to_float total_taxes = Ok tx /\
    In (k, PStr (PyFloat.format_2f (PyFloat.add x tx))) totals.
Proof.
  induction 1 as [| item entry shown totals [Hk (x & tx & Hx & Ht & Hv)] _ IH];
    simpl; intros Hin; [contradiction | ].
  destruct Hin as [-> | Hin].
  - exists x, tx. repeat split; trivial. left.
    destruct entry as [k' s]; simpl in *. now subst.
  - destruct (IH Hin) as (x' & tx' & ? & ? & ?). exists x', tx'. auto.
Qed.

(** C2, as the code has it.  For a mapping with distinct keys whose prices
    convert, and a tax total that is a float or an int in range, the
    function returns; the returned [room_totals] has exactly the keys of
    the mapping, in the same order; the value of each key is the [.2f]
    format of its converted price plus the tax total.  That string ends in
    a point and two digits when the sum is finite, and it is [inf], [-inf]
    or [nan] when the sum is not. *)
Theorem room_totals_match_shown_prices
    (shown : dict pyval) (total_taxes : number) (tx : PyFloat.float) :
  List.NoDup (dict_keys shown) ->
  number_to_float total_taxes = Ok tx ->
  prices_convert shown ->
  exists room price totals,
    find_and_calculate_room_prices (PDict shown) total_taxes = Ok (room, price, totals) /\
    dict_keys totals = dict_keys shown /\
    forall k v, In (k, v) shown ->
      exists x,
        py_float v = Ok x /\
        dict_get k totals = Some (PStr (PyFloat.format_2f (PyFloat.add x tx))) /\
        (PyFloat.is_finite (PyFloat.add x tx) = true ->
         two_decimals (PyFloat.format_2f (PyFloat.add x tx))) /\
        (PyFloat.is_finite (PyFloat.add x tx) = false ->
         PyFloat.format_2f (PyFloat.add x tx) = "inf" \/
         PyFloat.format_2f (PyFloat.add x tx) = "-inf" \/
         PyFloat.format_2f (PyFloat.add x tx) = "nan").
Proof.
  intros Hnd Ht Hconv.
  destruct (find_returns shown total_taxes tx Ht Hconv) as (st & _ & Hfind).
  exists (cheapest_room st), (cheapest_price st), (room_totals st).
  pose proof (find_totals _ _ _ _ _ Hnd Hfind) as Hall.
  pose proof (total_entries_keys _ _ _ Hall) as Hkeys.
  repeat split; trivial.
  intros k v Hin.
  destruct (total_entries_In _ _ _ k v Hall Hin) as (x & tx' & Hx & Ht' & Hin').
  assert (tx' = tx) by congruence. subst tx'.
  exists x. split; [exact Hx | ]. split; [ | split].
  - apply dict_get_In; [ | exact Hin']. now rewrite Hkeys.
  - apply format_2f_two_decimals.
  - apply format_2f_not_finite.
Qed.

(** Two finite numbers with a sum beyond the largest float: for the price
    1e308 and a tax total of 1e308 the total is written [inf], a string
    without a decimal point. *)
Lemma a_finite_price_and_tax_can_total_inf :
  py_float (PStr "1e308") = Ok huge /\
  PyFloat.is_finite huge = true /\
  find_and_calculate_room_prices (PDict [("A", PStr "1e308")]) (NFloat huge)
    = Ok (Some "A", Some huge, [("A", PStr "inf")]) /\
  ~ two_decimals "inf".
Proof.
  split; [vm_compute; reflexivity | ]. split; [reflexivity | ].
  split; [vm_compute; reflexivity | exact inf_has_no_decimals].
Qed.

(** On a mapping that is not empty, a returned cheapest room splits the
    mapping: the rooms before it have another price and none is cheaper, the
    rooms after it are not cheaper. *)
Lemma find_cheapest shown total_taxes room price totals :
  shown <> [] ->
  find_and_calculate_room_prices (PDict shown) total_taxes = Ok (room, price, totals) ->
  exists before r v after p,
    shown = before ++ (r, v) :: after /\
    room = Some r /\ price = Some p /\ py_float v = Ok p /\
    Forall (fun kv => forall x, py_float (snd kv) = Ok x ->
              PyFloat.ltb x p = false /\ PyFloat.eqb x p = false) before /\
    Forall (fun kv => forall x, py_float (snd kv) = Ok x ->
              PyFloat.ltb x p = false) after.
Proof.
  intros Hne Hfind. apply find_inv in Hfind as (st & Hloop & -> & -> & _).
  destruct (room_loop_cheapest total_taxes shown _ _ Hloop) as
    [(_ & _ & Hall) | (before & r & v & after & p & Hsplit & Hv & Hr & Hp & _ & Hb & Ha)].
  - destruct shown as [| [k v] rest]; [contradiction | ]. exfalso.
    cbn [room_loop] in Hloop.
    destruct (room_step total_taxes _ (k, v)) as [st1 | e] eqn:Hstep;
      cbn [bind] in Hloop; [ | discriminate].
    apply room_step_inv in Hstep as (x & _ & Hx & _).
    inversion Hall as [| ? ? Hhead _]; subst.
    specialize (Hhead x Hx). discriminate.
  - exists before, r, v, after, p. auto 10.
Qed.

(** Without conversion errors the function returns such a room. *)
Lemma find_returns_cheapest shown total_taxes tx :
  shown <> [] ->
  number_to_float total_taxes = Ok tx ->
  prices_convert shown ->
  exists before r v after p totals,
    find_and_calculate_room_prices (PDict shown) total_taxes = Ok (Some r, Some p, totals) /\
    shown = before ++ (r, v) :: after /\
    py_float v = Ok p /\
    (forall k' v' x, In (k', v') shown -> py_float v' = Ok x ->
       PyFloat.ltb x p = false) /\
    (forall k' v' x, In (k', v') before -> py_float v' = Ok x ->
       PyFloat.eqb x p = false).
Proof.
  intros Hne Ht Hconv.
  destruct (find_returns shown total_taxes tx Ht Hconv) as (st & _ & Hfind).
  destruct (find_cheapest _ _ _ _ _ Hne Hfind)
    as (before & r & v & after & p & Hsplit & Hr & Hp & Hv & Hb & Ha).
  rewrite Hr, Hp in Hfind.
  exists before, r, v, after, p, (room_totals st).
  rewrite List.Forall_forall in Hb, Ha.
  repeat split; trivial.
  - intros k' v' x Hin Hx. rewrite Hsplit in Hin.
    apply in_app_iff in Hin as [Hin | [Heq | Hin]].
    + now apply (Hb (k', v') Hin x).
    + inversion Heq; subst. assert (x = p) by congruence. subst.
      apply FloatOrder.ltb_irrefl.
    + now apply (Ha (k', v') Hin x).
  - intros k' v' x Hin Hx. now apply (Hb (k', v') Hin x).
Qed.

(** C4, as the code has it.  On a mapping that is not empty and whose
    prices convert, the function returns a room of the mapping with its
    converted price.  When no price is NaN, the returned price is the
    minimum, at most every price of the mapping, and it is strictly below
    the price of every earlier room, so among rooms of the lowest price the
    first is returned.  In every case no room of the mapping has a price
    below the returned one and no room before it has a price equal to it. *)
Theorem cheapest_room_has_minimum_price
    (shown : dict pyval) (total_taxes : number) (tx : PyFloat.float) :
  shown <> [] ->
  number_to_float total_taxes = Ok tx ->
  prices_convert shown ->
  exists before r v after p totals,
    find_and_calculate_room_prices (PDict shown) total_taxes = Ok (Some r, Some p, totals) /\
    shown = before ++ (r, v) :: after /\
    py_float v = Ok p /\
    (forall k' v' x, In (k', v') shown -> py_float v' = Ok x ->
       PyFloat.ltb x p = false) /\
    (forall k' v' x, In (k', v') before -> py_float v' = Ok x ->
       PyFloat.eqb x p = false) /\
    ((forall k' v' x, In (k', v') shown -> py_float v' = Ok x ->
        PyFloat.is_nan x = false) ->
     (forall k' v' x, In (k', v') shown -> py_float v' = Ok x ->
        PyFloat.leb p x = true) /\
     (forall k' v' x, In (k', v') before -> py_float v' = Ok x ->
        PyFloat.ltb p x = true)).
Proof.
  intros Hne Ht Hconv.
  destruct (find_returns_cheapest shown total_taxes tx Hne Ht Hconv)
    as (before & r & v & after & p & totals & Hfind & Hsplit & Hv & Hmin & Hfirst).
  exists before, r, v, after, p, totals.
  assert (In (r, v) shown) as Hrv
    by (rewrite Hsplit; apply in_app_iff; right; now left).
  repeat split; trivial.
  - intros k' v' x Hin Hx. apply FloatOrder.not_ltb_leb; eauto.
  - intros k' v' x Hin Hx.
    assert (In (k', v') shown) as Hin'
      by (rewrite Hsplit; apply in_app_iff; now left).
    apply FloatOrder.not_ltb_not_eqb_ltb; eauto.
Qed.

(** A price that is NaN, when it comes first, is returned as the cheapest,
    and it is not at most the price of the other room. *)
Lemma a_nan_price_is_no_minimum :
  find_and_calculate_room_prices
    (PDict [("A", PStr "nan"); ("B", PStr "1")]) (NInt 0)
  = Ok (Some "A", Some S754_nan, [("A", PStr "nan"); ("B", PStr "1.00")]) /\
  py_float (PStr "1") = Ok PyFloat.one /\
  PyFloat.leb S754_nan PyFloat.one = false.
Proof. repeat split; vm_compute; reflexivity. Qed.

(** C10.  On the empty mapping the function returns [None] for the room and
    for the price.  On a mapping with distinct keys that is not empty and
    whose prices convert, it returns a key of the mapping and the float its
    value converts to. *)
Theorem cheapest_room_is_a_key_of_the_mapping :
  (forall total_taxes,
     find_and_calculate_room_prices (PDict []) total_taxes = Ok (None, None, [])) /\
  (forall (shown : dict pyval) (total_taxes : number) (tx : PyFloat.float),
     shown <> [] ->
     List.NoDup (dict_keys shown) ->
     number_to_float total_taxes = Ok tx ->
     prices_convert shown ->
     exists r v p totals,
       find_and_calculate_room_prices (PDict shown) total_taxes
         = Ok (Some r, Some p, totals) /\
       In r (dict_keys shown) /\
       dict_get r shown = Some v /\
       py_float v = Ok p).
Proof.
  split; [reflexivity | ].
  intros shown total_taxes tx Hne Hnd Ht Hconv.
  destruct (find_returns shown total_taxes tx Ht Hconv) as (st & _ & Hfind).
  destruct (find_cheapest _ _ _ _ _ Hne Hfind)
    as (before & r & v & after & p & Hsplit & Hr & Hp & Hv & _).
  rewrite Hr, Hp in Hfind.
  assert (In (r, v) shown) as Hin
    by (rewrite Hsplit; apply in_app_iff; right; now left).
  exists r, v, p, (room_totals st). repeat split; trivial.
  - exact (in_map fst shown (r, v) Hin).
  - now apply dict_get_In.
Qed.

(** ** [parse_taxes] *)

Lemma sum_floats_from_float values xs :
  converted values xs ->
  forall acc,
    sum_floats (NFloat acc) values = Ok (NFloat (fold_left PyFloat.add xs acc)).
Proof.
  induction 1 as [| v x values xs Hv _ IH]; intros acc; cbn [sum_floats fold_left].
  - reflexivity.
  - rewrite Hv. cbn [bind number_add number_to_float]. apply IH.
Qed.

Lemma sum_floats_from_zero values xs :
  converted values xs ->
  sum_floats (NInt 0) values =
  Ok (match xs with [] => NInt 0 | _ => NFloat (float_sum xs) end).
Proof.
  intros Hconv. destruct Hconv as [| v x values xs Hv Hrest]; cbn [sum_floats].
  - reflexivity.
  - rewrite Hv. cbn [bind]. unfold number_add.
    change (number_to_float (NInt 0)) with (Ok (A := PyFloat.float) PyFloat.pos_zero).
    cbn [bind number_to_float].
    apply (sum_floats_from_float values xs Hrest).
Qed.

(** What [float] raises is an error of conversion, and so is what the sum
    raises. *)
Lemma py_float_raise_kind v e :
  py_float v = Raise e -> kind_of e = Some ConversionError.
Proof.
  destruct v as [| b | z | f | s | l | d]; simpl; try discriminate;
    try (intros H; inversion H; reflexivity).
  - destruct (PyFloat.of_Z z); simpl; [discriminate | ].
    intros H; inversion H; reflexivity.
  - destruct (PyFloat.of_string s); simpl; [discriminate | ].
    intros H; inversion H; reflexivity.
Qed.

Lemma number_add_raise_kind a b e :
  number_add a b = Raise e -> kind_of e = Some ConversionError.
Proof.
  destruct a as [x | x], b as [y | y]; simpl; try discriminate;
    repeat match goal with
           | |- context [PyFloat.of_Z ?z] => destruct (PyFloat.of_Z z); simpl
           end;
    try discriminate; intros H; inversion H; reflexivity.
Qed.

Lemma sum_floats_raise_kind values :
  forall total e,
    sum_floats total values = Raise e -> kind_of e = Some ConversionError.
Proof.
  induction values as [| v values IH]; intros total e; cbn [sum_floats].
  - discriminate.
  - destruct (py_float v) as [x | e1] eqn:Hv; cbn [bind].
    + destruct (number_add total (NFloat x)) as [t | e2] eqn:Ha; cbn [bind].
      * apply IH.
      * intros H; inversion H; subst. eapply number_add_raise_kind; eassumption.
    + intros H; inversion H; subst. eapply py_float_raise_kind; eassumption.
Qed.

(** A value that does not convert makes the sum raise. *)
Lemma sum_floats_raises values :
  Exists (fun v => exists e, py_float v = Raise e) values ->
  forall total, exists e, sum_floats total values = Raise e.
Proof.
  induction 1 as [v values [e Hv] | v values _ IH]; intros total; cbn [sum_floats].
  - rewrite Hv. cbn [bind]. eauto.
  - destruct (py_float v) as [x | e1]; cbn [bind]; [ | eauto].
    destruct (number_add total (NFloat x)) as [t | e2]; cbn [bind]; [ | eauto].
    apply IH.
Qed.

(** The total [parse_taxes] returns is the int [0] or a float. *)
Lemma sum_floats_total values :
  forall total total',
    sum_floats total values = Ok total' ->
    (exists x, number_to_float total = Ok x) ->
    exists x, number_to_float total' = Ok x.
Proof.
  induction values as [| v values IH]; intros total total'; cbn [sum_floats].
  - intros H; inversion H; subst. auto.
  - destruct (py_float v) as [x | e1]; cbn [bind]; [ | discriminate].
    destruct (number_add total (NFloat x)) as [t | e2] eqn:Ha; cbn [bind];
      [ | discriminate].
    intros Hsum _. apply (IH t total' Hsum).
    destruct total as [z | y]; simpl in Ha.
    + destruct (PyFloat.of_Z z); simpl in Ha; inversion Ha; subst; simpl; eauto.
    + inversion Ha; subst; simpl; eauto.
Qed.

Lemma parse_taxes_total taxes_json total :
  parse_taxes taxes_json = Ok total -> exists x, number_to_float total = Ok x.
Proof.
  unfold parse_taxes.
  destruct (Json.loads taxes_json) as [taxes | e]; cbn [bind]; [ | discriminate].
  destruct (py_values taxes) as [values | e]; cbn [bind]; [ | discriminate].
  intros H. apply (sum_floats_total _ _ _ H). exists PyFloat.pos_zero. reflexivity.
Qed.

(** With the sum that adds floats one by one: on a text that decodes to an
    object whose values convert to the floats [xs], [parse_taxes] returns
    their sum, added from left to right in float arithmetic; for the object
    without values the result is the int [0], which is equal to [0.0] and
    stands for it in arithmetic. *)
Theorem parse_taxes_sums_the_values
    (s : string) (taxes : dict pyval) (xs : list PyFloat.float) :
  Json.decode s = Some (PDict taxes) ->
  converted (dict_values taxes) xs ->
  exists total,
    parse_taxes (PStr s) = Ok total /\
    number_to_float total = Ok (float_sum xs) /\
    (xs <> [] -> total = NFloat (float_sum xs)) /\
    (taxes = [] ->
     float_sum xs = PyFloat.pos_zero /\
     number_eqb total (NFloat PyFloat.pos_zero) = true).
Proof.
  intros Hdec Hconv. unfold parse_taxes, Json.loads. rewrite Hdec.
  cbn [of_option bind py_values]. rewrite (sum_floats_from_zero _ _ Hconv).
  eexists. split; [reflexivity | ].
  destruct xs as [| x xs].
  - repeat split; try reflexivity; congruence.
  - split; [reflexivity | ]. split; [reflexivity | ].
    intros ->. inversion Hconv.
Qed.




(** ** [main] *)

Lemma read_json_file_world path w : snd (read_json_file path w) = w.
Proof.
  unfold read_json_file. destruct (files w !! path) as [[s | n v] | ]; reflexivity.
Qed.

Lemma main_run w :
  main w =
  match fst (read_json_file input_path w) with
  | Ok doc =>
      match (let* fields := extract_fields doc in prepare_output fields) with
      | Ok (info, totals, shown) => (Ok tt, report info totals shown w)
      | Raise e => (Raise e, w)
      end
  | Raise e => (Raise e, w)
  end.
Proof.
  pose proof (read_json_file_world input_path w) as Hw.
  unfold main, and_then, lift, extract_fields, entry_fields, prepare_output.
  destruct (read_json_file input_path w) as [[doc | e] w1]; simpl in Hw; subst w1;
    cbn [fst]; [ | reflexivity].
  destruct (getitem doc (PStr "assignment_results")) as [results | e];
    cbn [bind]; [ | reflexivity].
  destruct (getitem results (PInt 0)) as [entry | e]; cbn [bind]; [ | reflexivity].
  destruct (getitem entry (PStr "shown_price")) as [shown | e];
    cbn [bind]; [ | reflexivity].
  destruct (getitem entry (PStr "number_of_guests")) as [guests | e];
    cbn [bind]; [ | reflexivity].
  destruct (getitem entry (PStr "ext_data")) as [ext | e]; cbn [bind]; [ | reflexivity].
  destruct (getitem ext (PStr "taxes")) as [taxes | e]; cbn [bind]; [ | reflexivity].
  destruct (parse_taxes taxes) as [total | e]; cbn [bind]; [ | reflexivity].
  destruct (find_and_calculate_room_prices shown total) as [[[room price] totals] | e];
    cbn [bind]; [ | reflexivity].
  destruct (format_2f price) as [text | e]; cbn [bind]; [ | reflexivity].
  unfold write_output_to_file, print, report. cbn [files console].
  rewrite <- !app_assoc. reflexivity.
Qed.

(** In this model, where nothing raises after the write, a run that raises
    leaves the world as it was. *)
Lemma main_raise_world w e w' : main w = (Raise e, w') -> w' = w.
Proof.
  rewrite main_run.
  destruct (fst (read_json_file input_path w)) as [doc | e1].
  - destruct (let* fields := extract_fields doc in prepare_output fields)
      as [[[info totals] shown] | e2]; intros H; inversion H; reflexivity.
  - intros H; inversion H; reflexivity.
Qed.

Lemma main_of_fields w doc fields :
  fst (read_json_file input_path w) = Ok doc ->
  extract_fields doc = Ok fields ->
  main w =
  match prepare_output fields with
  | Ok (info, totals, shown) => (Ok tt, report info totals shown w)
  | Raise e => (Raise e, w)
  end.
Proof. intros Hread Hfields. rewrite main_run, Hread, Hfields. reflexivity. Qed.

(** C1, as the code has it.  When the document loads, its fields are there,
    the taxes parse and the prices of a mapping that is not empty convert,
    the run writes the output record and its [cheapest_price_info] holds the
    room the price resolver returned, the number of guests, and as [price]
    the [.2f] format of that room's converted net price: the tax total is
    not added to it.  No room of the mapping has a net price below it. *)
Theorem cheapest_price_info_holds_the_net_price
    (w : world) (doc guests taxes_json : pyval) (shown : dict pyval) (total : number) :
  fst (read_json_file input_path w) = Ok doc ->
  extract_fields doc = Ok (PDict shown, guests, taxes_json) ->
  parse_taxes taxes_json = Ok total ->
  shown <> [] ->
  prices_convert shown ->
  exists r v p totals info w',
    main w = (Ok tt, w') /\
    files w' !! output_path = Some (JsonDump 4 (output_record info totals)) /\
    getitem info (PStr "room_type") = Ok (PStr r) /\
    getitem info (PStr "number_of_guests") = Ok guests /\
    getitem info (PStr "price") = Ok (PStr (PyFloat.format_2f p)) /\
    In (r, v) shown /\
    py_float v = Ok p /\
    (forall k' v' x, In (k', v') shown -> py_float v' = Ok x ->
       PyFloat.ltb x p = false).
Proof.
  intros Hread Hfields Htaxes Hne Hconv.
  destruct (parse_taxes_total _ _ Htaxes) as [tx Htx].
  destruct (find_returns_cheapest shown total tx Hne Htx Hconv)
    as (before & r & v & after & p & totals & Hfind & Hsplit & Hv & Hmin & _).
  exists r, v, p, totals, (cheapest_info_record (Some r) guests (PyFloat.format_2f p)).
  eexists. split.
  - rewrite (main_of_fields w doc _ Hread Hfields).
    unfold prepare_output. rewrite Htaxes. cbn [bind]. rewrite Hfind.
    cbn [bind format_2f]. reflexivity.
  - repeat split; trivial.
    + unfold report. cbn [files]. apply lookup_insert_eq.
    + rewrite Hsplit. apply in_app_iff. right. now left.
Qed.

(** From the text of the input file to the output file: whenever the run
    succeeds on a document whose [shown_price] is an object, the
    [room_totals] written has the keys of [shown_price], in its order. *)
Lemma written_room_totals_have_the_shown_keys
    (w w' : world) (text : string) (doc guests taxes_json : pyval) (shown : dict pyval) :
  files w !! input_path = Some (Text text) ->
  Json.decode text = Some doc ->
  extract_fields doc = Ok (PDict shown, guests, taxes_json) ->
  main w = (Ok tt, w') ->
  exists info totals,
    files w' !! output_path = Some (JsonDump 4 (output_record info totals)) /\
    dict_keys totals = dict_keys shown.
Proof.
  intros Hfile Hdec Hfields Hmain.
  assert (fst (read_json_file input_path w) = Ok doc) as Hread.
  { unfold read_json_file, Json.loads. rewrite Hfile, Hdec. reflexivity. }
  rewrite (main_of_fields w doc _ Hread Hfields) in Hmain.
  unfold prepare_output in Hmain.
  destruct (parse_taxes taxes_json) as [total | e]; cbn [bind] in Hmain; [ | discriminate].
  destruct (find_and_calculate_room_prices (PDict shown) total)
    as [[[room price] totals] | e] eqn:Hfind; cbn [bind] in Hmain; [ | discriminate].
  destruct (format_2f price) as [shown_price | e]; cbn [bind] in Hmain; [ | discriminate].
  inversion Hmain; subst. eexists _, totals. split.
  - unfold report. cbn [files]. apply lookup_insert_eq.
  - eapply total_entries_keys, find_totals; [ | exact Hfind].
    eapply shown_prices_distinct_keys; eassumption.
Qed.

(** The scenario of the specification: the run succeeds, the totals are
    115.00 and 95.00, and the price of the cheapest room is written as
    80.00, its net price, not as 95.00. *)
Lemma scenario_price_is_not_tax_inclusive :
  exists w',
    main (world_of scenario_text) = (Ok tt, w') /\
    files w' !! output_path =
      Some (JsonDump 4
              (PDict [("cheapest_price_info",
                       PDict [("room_type", PStr "Deluxe");
                              ("number_of_guests", PInt 2);
                              ("price", PStr "80.00")]);
                      ("room_totals",
                       PDict [("Standard", PStr "115.00");
                              ("Deluxe", PStr "95.00")])])) /\
    PStr "80.00" <> PStr "95.00".
Proof.
  eexists. split; [vm_compute; reflexivity | ].
  split; [vm_compute; reflexivity | discriminate].
Qed.

(** C5, as the code has it.  With an empty [shown_price] and taxes that
    parse, the price resolver returns [None], [None] and no totals without
    raising; the run then raises TypeError, when [main] formats the [None]
    price, and the world is as before: no file is written, nothing is
    printed. *)
Theorem empty_shown_price_raises_TypeError
    (w : world) (doc guests taxes_json : pyval) (total : number) :
  fst (read_json_file input_path w) = Ok doc ->
  extract_fields doc = Ok (PDict [], guests, taxes_json) ->
  parse_taxes taxes_json = Ok total ->
  find_and_calculate_room_prices (PDict []) total = Ok (None, None, []) /\
  main w = (Raise TypeError, w).
Proof.
  intros Hread Hfields Htaxes. split; [reflexivity | ].
  rewrite (main_of_fields w doc _ Hread Hfields).
  unfold prepare_output. rewrite Htaxes. reflexivity.
Qed.

(** On a document with an empty [shown_price] the price resolver returns
    normally, and the run raises TypeError, which is no EmptyInputError. *)
Lemma empty_shown_price_is_no_EmptyInputError :
  find_and_calculate_room_prices (PDict []) (NInt 0) = Ok (None, None, []) /\
  main (world_of empty_prices_text) = (Raise TypeError, world_of empty_prices_text) /\
  kind_of TypeError <> Some EmptyInputError.
Proof.
  split; [reflexivity | ]. split; [vm_compute; reflexivity | discriminate].
Qed.

(** C6.  When the taxes decode to an object with a value [float] does not
    convert, the run raises the error of [parse_taxes], an error of
    conversion, and the world is as before: no file is written, nothing is
    printed. *)
Theorem unconvertible_tax_aborts_before_output
    (w : world) (doc shown guests taxes_json : pyval) (taxes : dict pyval) :
  fst (read_json_file input_path w) = Ok doc ->
  extract_fields doc = Ok (shown, guests, taxes_json) ->
  Json.loads taxes_json = Ok (PDict taxes) ->
  Exists (fun v => exists e, py_float v = Raise e) (dict_values taxes) ->
  exists e,
    parse_taxes taxes_json = Raise e /\
    kind_of e = Some ConversionError /\
    main w = (Raise e, w).
Proof.
  intros Hread Hfields Hloads Hbad.
  destruct (sum_floats_raises _ Hbad (NInt 0)) as [e He].
  assert (parse_taxes taxes_json = Raise e) as Hparse.
  { unfold parse_taxes. rewrite Hloads. cbn [bind py_values]. exact He. }
  exists e. repeat split; trivial.
  - eapply sum_floats_raise_kind. exact He.
  - rewrite (main_of_fields w doc _ Hread Hfields).
    unfold prepare_output. rewrite Hparse. reflexivity.
Qed.

(** C8.  When loading, field extraction, tax aggregation or price
    resolution raises, the run raises that same error and the world is as
    before: the files are unchanged, the output path included, and nothing
    is printed. *)
Theorem failure_before_the_writer_writes_nothing (w : world) (e : exn) :
  stage_fails w e ->
  main w = (Raise e, w) /\
  files (snd (main w)) !! output_path = files w !! output_path.
Proof.
  intros Hfail.
  assert (main w = (Raise e, w)) as Hmain.
  { destruct Hfail as [Hread | doc Hread Hfields | doc shown guests taxes_json Hread Hfields Htaxes
                       | doc shown guests taxes_json total Hread Hfields Htaxes Hfind].
    - rewrite main_run, Hread. reflexivity.
    - rewrite main_run, Hread, Hfields. reflexivity.
    - rewrite (main_of_fields w doc _ Hread Hfields).
      unfold prepare_output. rewrite Htaxes. reflexivity.
    - rewrite (main_of_fields w doc _ Hread Hfields).
      unfold prepare_output. rewrite Htaxes. cbn [bind]. rewrite Hfind. reflexivity. }
  split; [exact Hmain | ]. rewrite Hmain. reflexivity.
Qed.

Lemma extract_fields_first doc entry rest :
  getitem doc (PStr "assignment_results") = Ok (PList (entry :: rest)) ->
  extract_fields doc = entry_fields entry.
Proof. intros H. unfold extract_fields. rewrite H. reflexivity. Qed.

(** C9.  Two runs on documents whose [assignment_results] arrays start with
    the same entry, from worlds with the same output file and the same
    console, end alike: the same result, the same output file, the same
    console. *)
Theorem only_the_first_entry_is_read
    (w1 w2 : world) (doc1 doc2 entry : pyval) (rest1 rest2 : list pyval) :
  fst (read_json_file input_path w1) = Ok doc1 ->
  fst (read_json_file input_path w2) = Ok doc2 ->
  getitem doc1 (PStr "assignment_results") = Ok (PList (entry :: rest1)) ->
  getitem doc2 (PStr "assignment_results") = Ok (PList (entry :: rest2)) ->
  files w1 !! output_path = files w2 !! output_path ->
  console w1 = console w2 ->
  fst (main w1) = fst (main w2) /\
  files (snd (main w1)) !! output_path = files (snd (main w2)) !! output_path /\
  console (snd (main w1)) = console (snd (main w2)).
Proof.
  intros Hread1 Hread2 Hres1 Hres2 Hfile Hconsole.
  rewrite !main_run, Hread1, Hread2.
  rewrite (extract_fields_first _ _ _ Hres1), (extract_fields_first _ _ _ Hres2).
  destruct (let* fields := entry_fields entry in prepare_output fields)
    as [[[info totals] shown] | e]; cbn [fst snd]; [ | auto].
  unfold report. cbn [files console].
  rewrite !lookup_insert_eq, Hconsole. auto.
Qed.

(** ** Values at the edges *)

(** The prices of the scenario as floats. *)
Lemma scenario_prices_as_floats :
  py_float (PStr "100.00") = Ok hundred /\ py_float (PStr "80.00") = Ok eighty.
Proof. split; by_computation. Qed.

(** The sum over no value is the int [0], equal to [0.0]. *)
Lemma parse_taxes_of_the_empty_object :
  parse_taxes (PStr "{}") = Ok (NInt 0) /\
  number_eqb (NInt 0) (NFloat PyFloat.pos_zero) = true /\
  number_to_float (NInt 0) = Ok PyFloat.pos_zero.
Proof. repeat split; by_computation. Qed.

(** Nothing is below NaN for [<]: a first price that is NaN stays the
    cheapest, as it is the result of Python's [min] on such a list. *)
Lemma a_first_price_that_is_nan_is_kept :
  find_and_calculate_room_prices
    (PDict [("A", PStr "nan"); ("B", PStr "1")]) (NInt 0)
  = Ok (Some "A", Some S754_nan, [("A", PStr "nan"); ("B", PStr "1.00")]).
Proof. by_computation. Qed.

(** Equal prices: the first room is returned. *)
Lemma the_first_of_equal_prices_is_returned :
  find_and_calculate_room_prices
    (PDict [("A", PStr "2"); ("B", PStr "1.0"); ("C", PStr "1")]) (NFloat fifteen)
  = Ok (Some "B", Some PyFloat.one,
        [("A", PStr "17.00"); ("B", PStr "16.00"); ("C", PStr "16.00")]).
Proof. by_computation. Qed.

(** A total beyond the finite range is shown without digits. *)
Lemma an_infinite_total_is_shown_as_inf :
  find_and_calculate_room_prices (PDict [("A", PStr "1e400")]) (NFloat fifteen)
  = Ok (Some "A", Some (S754_infinity false), [("A", PStr "inf")]).
Proof. by_computation. Qed.

(** ** The theorems on the example documents *)

Lemma scenario_text_decodes : Json.decode scenario_text = Some scenario_doc.
Proof. by_computation. Qed.

Lemma two_entries_text_decodes : Json.decode two_entries_text = Some two_entries_doc.
Proof. by_computation. Qed.

Lemma scenario_taxes_are_fifteen : parse_taxes (PStr scenario_taxes_text) = Ok (NFloat fifteen).
Proof. by_computation. Qed.

(** C1 on the scenario. *)
Lemma cheapest_price_info_holds_the_net_price_witness :
  fst (read_json_file input_path (world_of scenario_text)) = Ok scenario_doc /\
  extract_fields scenario_doc
    = Ok (PDict scenario_prices, PInt 2, PStr scenario_taxes_text) /\
  parse_taxes (PStr scenario_taxes_text) = Ok (NFloat fifteen) /\
  scenario_prices <> [] /\
  prices_convert scenario_prices /\
  exists r v p totals info w',
    main (world_of scenario_text) = (Ok tt, w') /\
    files w' !! output_path = Some (JsonDump 4 (output_record info totals)) /\
    getitem info (PStr "room_type") = Ok (PStr r) /\
    getitem info (PStr "number_of_guests") = Ok (PInt 2) /\
    getitem info (PStr "price") = Ok (PStr (PyFloat.format_2f p)) /\
    In (r, v) scenario_prices /\
    py_float v = Ok p /\
    (forall k' v' x, In (k', v') scenario_prices -> py_float v' = Ok x ->
       PyFloat.ltb x p = false).
Proof.
  assert (fst (read_json_file input_path (world_of scenario_text)) = Ok scenario_doc)
    as H1 by by_computation.
  assert (extract_fields scenario_doc
          = Ok (PDict scenario_prices, PInt 2, PStr scenario_taxes_text))
    as H2 by by_computation.
  assert (parse_taxes (PStr scenario_taxes_text) = Ok (NFloat fifteen))
    as H3 by by_computation.
  assert (scenario_prices <> []) as H4 by discriminate.
  assert (prices_convert scenario_prices) as H5 by all_convert.
  repeat (split; [assumption | ]).
  exact (cheapest_price_info_holds_the_net_price
           (world_of scenario_text) scenario_doc (PInt 2) (PStr scenario_taxes_text)
           scenario_prices (NFloat fifteen) H1 H2 H3 H4 H5).
Defined.

(** C2 on the prices of the scenario with a tax total of 15.0. *)
Lemma room_totals_match_shown_prices_witness :
  List.NoDup (dict_keys scenario_prices) /\
  number_to_float (NFloat fifteen) = Ok fifteen /\
  prices_convert scenario_prices /\
  exists room price totals,
    find_and_calculate_room_prices (PDict scenario_prices) (NFloat fifteen)
      = Ok (room, price, totals) /\
    dict_keys totals = dict_keys scenario_prices /\
    forall k v, In (k, v) scenario_prices ->
      exists x,
        py_float v = Ok x /\
        dict_get k totals = Some (PStr (PyFloat.format_2f (PyFloat.add x fifteen))) /\
        (PyFloat.is_finite (PyFloat.add x fifteen) = true ->
         two_decimals (PyFloat.format_2f (PyFloat.add x fifteen))) /\
        (PyFloat.is_finite (PyFloat.add x fifteen) = false ->
         PyFloat.format_2f (PyFloat.add x fifteen) = "inf" \/
         PyFloat.format_2f (PyFloat.add x fifteen) = "-inf" \/
         PyFloat.format_2f (PyFloat.add x fifteen) = "nan").
Proof.
  assert (List.NoDup (dict_keys scenario_prices)) as H1 by distinct_keys.
  assert (number_to_float (NFloat fifteen) = Ok fifteen) as H2 by reflexivity.
  assert (prices_convert scenario_prices) as H3 by all_convert.
  repeat (split; [assumption | ]).
  exact (room_totals_match_shown_prices scenario_prices (NFloat fifteen) fifteen H1 H2 H3).
Defined.

(** The plain sum on the taxes of the scenario. *)
Lemma parse_taxes_sums_the_values_witness :
  Json.decode scenario_taxes_text = Some (PDict scenario_taxes) /\
  converted (dict_values scenario_taxes) [ten; five] /\
  exists total,
    parse_taxes (PStr scenario_taxes_text) = Ok total /\
    number_to_float total = Ok (float_sum [ten; five]) /\
    ([ten; five] <> [] -> total = NFloat (float_sum [ten; five])) /\
    (scenario_taxes = [] ->
     float_sum [ten; five] = PyFloat.pos_zero /\
     number_eqb total (NFloat PyFloat.pos_zero) = true).
Proof.
  assert (Json.decode scenario_taxes_text = Some (PDict scenario_taxes))
    as H1 by by_computation.
  assert (converted (dict_values scenario_taxes) [ten; five]) as H2
    by (repeat (constructor; [by_computation | ]); constructor).
  repeat (split; [assumption | ]).
  exact (parse_taxes_sums_the_values scenario_taxes_text scenario_taxes [ten; five] H1 H2).
Defined.

(** C4 on the prices of the scenario. *)
Lemma cheapest_room_has_minimum_price_witness :
  scenario_prices <> [] /\
  number_to_float (NFloat fifteen) = Ok fifteen /\
  prices_convert scenario_prices /\
  exists before r v after p totals,
    find_and_calculate_room_prices (PDict scenario_prices) (NFloat fifteen)
      = Ok (Some r, Some p, totals) /\
    scenario_prices = before ++ (r, v) :: after /\
    py_float v = Ok p /\
    (forall k' v' x, In (k', v') scenario_prices -> py_float v' = Ok x ->
       PyFloat.ltb x p = false) /\
    (forall k' v' x, In (k', v') before -> py_float v' = Ok x ->
       PyFloat.eqb x p = false) /\
    ((forall k' v' x, In (k', v') scenario_prices -> py_float v' = Ok x ->
        PyFloat.is_nan x = false) ->
     (forall k' v' x, In (k', v') scenario_prices -> py_float v' = Ok x ->
        PyFloat.leb p x = true) /\
     (forall k' v' x, In (k', v') before -> py_float v' = Ok x ->
        PyFloat.ltb p x = true)).
Proof.
  assert (scenario_prices <> []) as H1 by discriminate.
  assert (number_to_float (NFloat fifteen) = Ok fifteen) as H2 by reflexivity.
  assert (prices_convert scenario_prices) as H3 by all_convert.
  repeat (split; [assumption | ]).
  exact (cheapest_room_has_minimum_price scenario_prices (NFloat fifteen) fifteen H1 H2 H3).
Defined.

(** C5 on the document with an empty [shown_price]. *)
Lemma empty_shown_price_raises_TypeError_witness :
  fst (read_json_file input_path (world_of empty_prices_text)) = Ok empty_prices_doc /\
  extract_fields empty_prices_doc
    = Ok (PDict [], PInt 2, PStr (dq "{'vat': '10'}")) /\
  parse_taxes (PStr (dq "{'vat': '10'}")) = Ok (NFloat ten) /\
  find_and_calculate_room_prices (PDict []) (NFloat ten) = Ok (None, None, []) /\
  main (world_of empty_prices_text) = (Raise TypeError, world_of empty_prices_text).
Proof.
  assert (fst (read_json_file input_path (world_of empty_prices_text))
          = Ok empty_prices_doc) as H1 by by_computation.
  assert (extract_fields empty_prices_doc
          = Ok (PDict [], PInt 2, PStr (dq "{'vat': '10'}"))) as H2 by by_computation.
  assert (parse_taxes (PStr (dq "{'vat': '10'}")) = Ok (NFloat ten))
    as H3 by by_computation.
  repeat (split; [assumption | ]).
  exact (empty_shown_price_raises_TypeError
           (world_of empty_prices_text) empty_prices_doc (PInt 2)
           (PStr (dq "{'vat': '10'}")) (NFloat ten) H1 H2 H3).
Defined.

(** C6 on the document whose tax is [abc]. *)
Lemma unconvertible_tax_aborts_before_output_witness :
  fst (read_json_file input_path (world_of bad_tax_text)) = Ok bad_tax_doc /\
  extract_fields bad_tax_doc
    = Ok (PDict [("Standard", PStr "100.00")], PInt 2, PStr (dq "{'vat': 'abc'}")) /\
  Json.loads (PStr (dq "{'vat': 'abc'}")) = Ok (PDict [("vat", PStr "abc")]) /\
  Exists (fun v => exists e, py_float v = Raise e) (dict_values [("vat", PStr "abc")]) /\
  exists e,
    parse_taxes (PStr (dq "{'vat': 'abc'}")) = Raise e /\
    kind_of e = Some ConversionError /\
    main (world_of bad_tax_text) = (Raise e, world_of bad_tax_text).
Proof.
  assert (fst (read_json_file input_path (world_of bad_tax_text)) = Ok bad_tax_doc)
    as H1 by by_computation.
  assert (extract_fields bad_tax_doc
          = Ok (PDict [("Standard", PStr "100.00")], PInt 2, PStr (dq "{'vat': 'abc'}")))
    as H2 by by_computation.
  assert (Json.loads (PStr (dq "{'vat': 'abc'}")) = Ok (PDict [("vat", PStr "abc")]))
    as H3 by by_computation.
  assert (Exists (fun v => exists e, py_float v = Raise e)
                 (dict_values [("vat", PStr "abc")])) as H4
    by (constructor 1; exists ValueError; by_computation).
  repeat (split; [assumption | ]).
  exact (unconvertible_tax_aborts_before_output
           (world_of bad_tax_text) bad_tax_doc _ _ _ _ H1 H2 H3 H4).
Defined.


(** C8 on the document whose tax is [abc], and on a world without the
    input file. *)
Lemma failure_before_the_writer_writes_nothing_witness :
  stage_fails (world_of bad_tax_text) ValueError /\
  main (world_of bad_tax_text) = (Raise ValueError, world_of bad_tax_text) /\
  files (snd (main (world_of bad_tax_text))) !! output_path
    = files (world_of bad_tax_text) !! output_path.
Proof.
  assert (stage_fails (world_of bad_tax_text) ValueError) as H1.
  { apply (Tax_aggregation_fails _ _ bad_tax_doc
             (PDict [("Standard", PStr "100.00")]) (PInt 2) (PStr (dq "{'vat': 'abc'}")));
      by_computation. }
  split; [assumption | ].
  exact (failure_before_the_writer_writes_nothing (world_of bad_tax_text) ValueError H1).
Defined.

(** C9 on the scenario and the scenario followed by a second entry. *)
Lemma only_the_first_entry_is_read_witness :
  fst (read_json_file input_path (world_of scenario_text)) = Ok scenario_doc /\
  fst (read_json_file input_path (world_of two_entries_text)) = Ok two_entries_doc /\
  getitem scenario_doc (PStr "assignment_results") = Ok (PList [scenario_entry]) /\
  getitem two_entries_doc (PStr "assignment_results")
    = Ok (PList [scenario_entry; second_entry]) /\
  fst (main (world_of scenario_text)) = fst (main (world_of two_entries_text)) /\
  files (snd (main (world_of scenario_text))) !! output_path
    = files (snd (main (world_of two_entries_text))) !! output_path /\
  console (snd (main (world_of scenario_text)))
    = console (snd (main (world_of two_entries_text))).
Proof.
  assert (fst (read_json_file input_path (world_of scenario_text)) = Ok scenario_doc)
    as H1 by by_computation.
  assert (fst (read_json_file input_path (world_of two_entries_text)) = Ok two_entries_doc)
    as H2 by by_computation.
  assert (getitem scenario_doc (PStr "assignment_results") = Ok (PList [scenario_entry]))
    as H3 by reflexivity.
  assert (getitem two_entries_doc (PStr "assignment_results")
          = Ok (PList [scenario_entry; second_entry])) as H4 by reflexivity.
  repeat (split; [assumption | ]).
  exact (only_the_first_entry_is_read
           (world_of scenario_text) (world_of two_entries_text)
           scenario_doc two_entries_doc scenario_entry [] [second_entry]
           H1 H2 H3 H4 eq_refl eq_refl).
Defined.

(** C10 on the prices of the scenario. *)
Lemma cheapest_room_is_a_key_of_the_mapping_witness :
  scenario_prices <> [] /\
  List.NoDup (dict_keys scenario_prices) /\
  number_to_float (NFloat fifteen) = Ok fifteen /\
  prices_convert scenario_prices /\
  exists r v p totals,
    find_and_calculate_room_prices (PDict scenario_prices) (NFloat fifteen)
      = Ok (Some r, Some p, totals) /\
    In r (dict_keys scenario_prices) /\
    dict_get r scenario_prices = Some v /\
    py_float v = Ok p.
Proof.
  assert (scenario_prices <> []) as H1 by discriminate.
  assert (List.NoDup (dict_keys scenario_prices)) as H2 by distinct_keys.
  assert (number_to_float (NFloat fifteen) = Ok fifteen) as H3 by reflexivity.
  assert (prices_convert scenario_prices) as H4 by all_convert.
  repeat (split; [assumption | ]).
  exact (proj2 cheapest_room_is_a_key_of_the_mapping
           scenario_prices (NFloat fifteen) fifteen H1 H2 H3 H4).
Defined.

(** * Further properties of the script *)

(** ** Runs that fail before the taxes *)

Lemma main_raises_with_extract_fields w doc e :
  fst (read_json_file input_path w) = Ok doc ->
  extract_fields doc = Raise e ->
  main w = (Raise e, w).
Proof. intros Hread Hfields. rewrite main_run, Hread, Hfields. reflexivity. Qed.

(** X1.  Without a file at the input path, [read_json_file] raises
    FileNotFoundError, and so does the run; the world is as before. *)
Theorem a_missing_input_file_raises_FileNotFoundError (w : world) :
  files w !! input_path = None ->
  read_json_file input_path w = (Raise FileNotFoundError, w) /\
  main w = (Raise FileNotFoundError, w).
Proof.
  intros Hfile.
  assert (read_json_file input_path w = (Raise FileNotFoundError, w)) as Hread
    by (unfold read_json_file; rewrite Hfile; reflexivity).
  split; [exact Hread | ]. rewrite main_run, Hread. reflexivity.
Qed.

Lemma a_missing_input_file_raises_FileNotFoundError_witness :
  files (World ∅ []) !! input_path = None /\
  read_json_file input_path (World ∅ []) = (Raise FileNotFoundError, World ∅ []) /\
  main (World ∅ []) = (Raise FileNotFoundError, World ∅ []).
Proof.
  assert (files (World ∅ []) !! input_path = None) as H1 by reflexivity.
  split; [assumption | ].
  exact (a_missing_input_file_raises_FileNotFoundError (World ∅ []) H1).
Defined.



Lemma entry_fields_of_dict entry :
  entry_fields (PDict entry) =
  let* shown_prices := of_option KeyError (dict_get "shown_price" entry) in
  let* number_of_guests := of_option KeyError (dict_get "number_of_guests" entry) in
  let* ext_data := of_option KeyError (dict_get "ext_data" entry) in
  let* taxes_json := getitem ext_data (PStr "taxes") in
  Ok (shown_prices, number_of_guests, taxes_json).
Proof. reflexivity. Qed.

(** X3.  When the document is an object that lacks [assignment_results],
    or its first entry is an object that lacks [shown_price],
    [number_of_guests] or [ext_data], or [ext_data] is an object that lacks
    [taxes], the run raises KeyError and the world is as before. *)
Theorem a_missing_field_raises_KeyError (w : world) (doc : pyval) :
  fst (read_json_file input_path w) = Ok doc ->
  lacks_a_field doc ->
  extract_fields doc = Raise KeyError /\ main w = (Raise KeyError, w).
Proof.
  intros Hread Hlacks.
  assert (extract_fields doc = Raise KeyError) as Hfields.
  { destruct Hlacks as [top Hnone | top entry rest key Hres Hkey Hnone
                        | top entry rest ext Hres Hext Hnone].
    - unfold extract_fields, getitem. rewrite Hnone. reflexivity.
    - rewrite (extract_fields_first (PDict top) (PDict entry) rest)
        by (unfold getitem; rewrite Hres; reflexivity).
      rewrite entry_fields_of_dict.
      destruct Hkey as [<- | [<- | [<- | []]]].
      + rewrite Hnone. reflexivity.
      + rewrite Hnone. destruct (dict_get "shown_price" entry); reflexivity.
      + rewrite Hnone.
        destruct (dict_get "shown_price" entry); [ | reflexivity].
        destruct (dict_get "number_of_guests" entry); reflexivity.
    - rewrite (extract_fields_first (PDict top) (PDict entry) rest)
        by (unfold getitem; rewrite Hres; reflexivity).
      rewrite entry_fields_of_dict, Hext.
      destruct (dict_get "shown_price" entry); [ | reflexivity].
      destruct (dict_get "number_of_guests" entry); [ | reflexivity].
      cbn [of_option bind getitem]. rewrite Hnone. reflexivity. }
  split; [exact Hfields | ]. exact (main_raises_with_extract_fields w doc _ Hread Hfields).
Qed.

Lemma a_missing_field_raises_KeyError_witness :
  fst (read_json_file input_path (world_of no_guests_text)) = Ok no_guests_doc /\
  lacks_a_field no_guests_doc /\
  extract_fields no_guests_doc = Raise KeyError /\
  main (world_of no_guests_text) = (Raise KeyError, world_of no_guests_text).
Proof.
  assert (fst (read_json_file input_path (world_of no_guests_text)) = Ok no_guests_doc)
    as H1 by by_computation.
  assert (lacks_a_field no_guests_doc) as H2.
  { apply (No_entry_field _ no_guests_entry [] "number_of_guests");
      [reflexivity | simpl; tauto | reflexivity]. }
  repeat (split; [assumption | ]).
  exact (a_missing_field_raises_KeyError (world_of no_guests_text) no_guests_doc H1 H2).
Defined.

(** X4.  When [assignment_results] is an empty array, the subscript [0]
    raises IndexError, and so does the run; the world is as before. *)
Theorem no_assignment_result_raises_IndexError (w : world) (doc : pyval) :
  fst (read_json_file input_path w) = Ok doc ->
  getitem doc (PStr "assignment_results") = Ok (PList []) ->
  extract_fields doc = Raise IndexError /\ main w = (Raise IndexError, w).
Proof.
  intros Hread Hres.
  assert (extract_fields doc = Raise IndexError) as Hfields
    by (unfold extract_fields; rewrite Hres; reflexivity).
  split; [exact Hfields | ]. exact (main_raises_with_extract_fields w doc _ Hread Hfields).
Qed.

Lemma no_assignment_result_raises_IndexError_witness :
  fst (read_json_file input_path (world_of no_results_text)) = Ok no_results_doc /\
  getitem no_results_doc (PStr "assignment_results") = Ok (PList []) /\
  extract_fields no_results_doc = Raise IndexError /\
  main (world_of no_results_text) = (Raise IndexError, world_of no_results_text).
Proof.
  assert (fst (read_json_file input_path (world_of no_results_text)) = Ok no_results_doc)
    as H1 by by_computation.
  assert (getitem no_results_doc (PStr "assignment_results") = Ok (PList []))
    as H2 by reflexivity.
  repeat (split; [assumption | ]).
  exact (no_assignment_result_raises_IndexError (world_of no_results_text) no_results_doc H1 H2).
Defined.

(** ** Taxes and prices of the wrong type *)

(** X5.  [json.loads] takes text: when [taxes] is any other value, an
    object for instance, [parse_taxes] raises TypeError, and so does the
    run; the world is as before. *)
Theorem taxes_that_are_no_text_raise_TypeError
    (w : world) (doc shown guests taxes_json : pyval) :
  fst (read_json_file input_path w) = Ok doc ->
  extract_fields doc = Ok (shown, guests, taxes_json) ->
  (forall s, taxes_json <> PStr s) ->
  parse_taxes taxes_json = Raise TypeError /\ main w = (Raise TypeError, w).
Proof.
  intros Hread Hfields Hnot.
  assert (parse_taxes taxes_json = Raise TypeError) as Hparse.
  { unfold parse_taxes, Json.loads.
    destruct taxes_json; try reflexivity. exfalso. eapply Hnot. reflexivity. }
  split; [exact Hparse | ].
  rewrite (main_of_fields w doc _ Hread Hfields).
  unfold prepare_output. rewrite Hparse. reflexivity.
Qed.

Lemma taxes_that_are_no_text_raise_TypeError_witness :
  fst (read_json_file input_path (world_of taxes_object_text)) = Ok taxes_object_doc /\
  extract_fields taxes_object_doc
    = Ok (PDict [("Standard", PStr "100.00")], PInt 2, PDict [("vat", PStr "10")]) /\
  (forall s, PDict [("vat", PStr "10")] <> PStr s) /\
  parse_taxes (PDict [("vat", PStr "10")]) = Raise TypeError /\
  main (world_of taxes_object_text) = (Raise TypeError, world_of taxes_object_text).
Proof.
  assert (fst (read_json_file input_path (world_of taxes_object_text))
          = Ok taxes_object_doc) as H1 by by_computation.
  assert (extract_fields taxes_object_doc
          = Ok (PDict [("Standard", PStr "100.00")], PInt 2, PDict [("vat", PStr "10")]))
    as H2 by by_computation.
  assert (forall s, PDict [("vat", PStr "10")] <> PStr s) as H3 by discriminate.
  repeat (split; [assumption | ]).
  exact (taxes_that_are_no_text_raise_TypeError
           (world_of taxes_object_text) taxes_object_doc _ _ _ H1 H2 H3).
Defined.

(** X6.  Only a dict has [items]: when [shown_price] is any other value,
    an array for instance, [find_and_calculate_room_prices] raises
    AttributeError, and when the taxes parse so does the run; the world is
    as before. *)
Theorem prices_that_are_no_object_raise_AttributeError
    (w : world) (doc shown guests taxes_json : pyval) (total : number) :
  fst (read_json_file input_path w) = Ok doc ->
  extract_fields doc = Ok (shown, guests, taxes_json) ->
  parse_taxes taxes_json = Ok total ->
  (forall d, shown <> PDict d) ->
  find_and_calculate_room_prices shown total = Raise AttributeError /\
  main w = (Raise AttributeError, w).
Proof.
  intros Hread Hfields Hparse Hnot.
  assert (find_and_calculate_room_prices shown total = Raise AttributeError) as Hfind.
  { unfold find_and_calculate_room_prices, py_items.
    destruct shown; try reflexivity. exfalso. eapply Hnot. reflexivity. }
  split; [exact Hfind | ].
  rewrite (main_of_fields w doc _ Hread Hfields).
  unfold prepare_output. rewrite Hparse. cbn [bind]. rewrite Hfind. reflexivity.
Qed.

Lemma prices_that_are_no_object_raise_AttributeError_witness :
  fst (read_json_file input_path (world_of prices_array_text)) = Ok prices_array_doc /\
  extract_fields prices_array_doc
    = Ok (PList [PStr "100.00"; PStr "80.00"], PInt 2, PStr (dq "{'vat': '10'}")) /\
  parse_taxes (PStr (dq "{'vat': '10'}")) = Ok (NFloat ten) /\
  (forall d, PList [PStr "100.00"; PStr "80.00"] <> PDict d) /\
  find_and_calculate_room_prices (PList [PStr "100.00"; PStr "80.00"]) (NFloat ten)
    = Raise AttributeError /\
  main (world_of prices_array_text) = (Raise AttributeError, world_of prices_array_text).
Proof.
  assert (fst (read_json_file input_path (world_of prices_array_text))
          = Ok prices_array_doc) as H1 by by_computation.
  assert (extract_fields prices_array_doc
          = Ok (PList [PStr "100.00"; PStr "80.00"], PInt 2, PStr (dq "{'vat': '10'}")))
    as H2 by by_computation.
  assert (parse_taxes (PStr (dq "{'vat': '10'}")) = Ok (NFloat ten)) as H3
    by by_computation.
  assert (forall d, PList [PStr "100.00"; PStr "80.00"] <> PDict d) as H4 by discriminate.
  repeat (split; [assumption | ]).
  exact (prices_that_are_no_object_raise_AttributeError
           (world_of prices_array_text) prices_array_doc _ _ _ (NFloat ten) H1 H2 H3 H4).
Defined.

(** ** More on [find_and_calculate_room_prices] *)

Lemma room_loop_app total_taxes items1 items2 :
  forall st,
    room_loop total_taxes st (items1 ++ items2) =
    let* st1 := room_loop total_taxes st items1 in
    room_loop total_taxes st1 items2.
Proof.
  induction items1 as [| item items1 IH]; intros st; cbn [app room_loop bind].
  - reflexivity.
  - destruct (room_step total_taxes st item) as [st1 | e]; cbn [bind]; [apply IH | reflexivity].
Qed.

Lemma room_loop_raises total_taxes tx k v e after :
  number_to_float total_taxes = Ok tx ->
  py_float v = Raise e ->
  forall before st,
    prices_convert before ->
    room_loop total_taxes st (before ++ (k, v) :: after) = Raise e.
Proof.
  intros Ht Hv before st Hconv. rewrite room_loop_app.
  destruct (room_loop_ok total_taxes before tx Ht Hconv st) as [st1 ->].
  cbn [bind room_loop]. unfold room_step. rewrite Hv. reflexivity.
Qed.

(** X7.  The prices are converted in the order of the mapping: when the
    prices before some room convert and the price of that room does not,
    the function raises what [float] raises on it, an error of conversion,
    whatever the later prices are. *)
Theorem the_first_price_that_does_not_convert_is_raised
    (before after : dict pyval) (k : string) (v : pyval) (e : exn)
    (total_taxes : number) (tx : PyFloat.float) :
  number_to_float total_taxes = Ok tx ->
  prices_convert before ->
  py_float v = Raise e ->
  find_and_calculate_room_prices (PDict (before ++ (k, v) :: after)) total_taxes
    = Raise e /\
  kind_of e = Some ConversionError.
Proof.
  intros Ht Hconv Hv. split.
  - rewrite find_unfold, (room_loop_raises total_taxes tx k v e after Ht Hv before _ Hconv).
    reflexivity.
  - eapply py_float_raise_kind. exact Hv.
Qed.

Lemma the_first_price_that_does_not_convert_is_raised_witness :
  number_to_float (NFloat fifteen) = Ok fifteen /\
  prices_convert [("Standard", PStr "100.00")] /\
  py_float (PStr "cheap") = Raise ValueError /\
  find_and_calculate_room_prices (PDict bad_prices) (NFloat fifteen) = Raise ValueError /\
  kind_of ValueError = Some ConversionError.
Proof.
  assert (number_to_float (NFloat fifteen) = Ok fifteen) as H1 by reflexivity.
  assert (prices_convert [("Standard", PStr "100.00")]) as H2 by all_convert.
  assert (py_float (PStr "cheap") = Raise ValueError) as H3 by by_computation.
  repeat (split; [assumption | ]).
  exact (the_first_price_that_does_not_convert_is_raised
           [("Standard", PStr "100.00")] [("Suite", PStr "300")] "Deluxe" (PStr "cheap")
           ValueError (NFloat fifteen) fifteen H1 H2 H3).
Defined.

Lemma room_loop_cheapest_independent t1 t2 items :
  forall st1 st2 st1' st2',
    cheapest_room st1 = cheapest_room st2 ->
    cheapest_price st1 = cheapest_price st2 ->
    room_loop t1 st1 items = Ok st1' ->
    room_loop t2 st2 items = Ok st2' ->
    cheapest_room st1' = cheapest_room st2' /\
    cheapest_price st1' = cheapest_price st2'.
Proof.
  induction items as [| [k v] items IH]; cbn [room_loop];
    intros st1 st2 st1' st2' Hr Hp Hrun1 Hrun2.
  - inversion Hrun1; inversion Hrun2; subst. auto.
  - destruct (room_step t1 st1 (k, v)) as [s1 | e] eqn:Hs1;
      cbn [bind] in Hrun1; [ | discriminate].
    destruct (room_step t2 st2 (k, v)) as [s2 | e] eqn:Hs2;
      cbn [bind] in Hrun2; [ | discriminate].
    apply room_step_inv in Hs1 as (x1 & tx1 & Hx1 & _ & _ & Hcase1).
    apply room_step_inv in Hs2 as (x2 & tx2 & Hx2 & _ & _ & Hcase2).
    assert (x2 = x1) by congruence. subst x2. rewrite <- Hp in Hcase2.
    apply (IH s1 s2 st1' st2'); trivial;
      destruct Hcase1 as [(Hc1 & Hr1 & Hp1) | (Hc1 & Hr1 & Hp1)];
      destruct Hcase2 as [(Hc2 & Hr2 & Hp2) | (Hc2 & Hr2 & Hp2)];
      congruence.
Qed.

(** X8.  The tax total is added to every price alike and plays no part in
    the comparison: the room and the net price returned for a mapping are
    the same for any two tax totals on which the function returns. *)
Theorem the_cheapest_room_does_not_depend_on_the_taxes
    (shown : dict pyval) (t1 t2 : number)
    (room1 room2 : option string) (price1 price2 : option PyFloat.float)
    (totals1 totals2 : dict pyval) :
  find_and_calculate_room_prices (PDict shown) t1 = Ok (room1, price1, totals1) ->
  find_and_calculate_room_prices (PDict shown) t2 = Ok (room2, price2, totals2) ->
  room1 = room2 /\ price1 = price2.
Proof.
  intros H1 H2.
  apply find_inv in H1 as (st1 & Hloop1 & -> & -> & _).
  apply find_inv in H2 as (st2 & Hloop2 & -> & -> & _).
  exact (room_loop_cheapest_independent t1 t2 shown _ _ _ _ eq_refl eq_refl Hloop1 Hloop2).
Qed.

Lemma the_cheapest_room_does_not_depend_on_the_taxes_witness :
  find_and_calculate_room_prices (PDict scenario_prices) (NFloat fifteen)
    = Ok (Some "Deluxe", Some eighty,
          [("Standard", PStr "115.00"); ("Deluxe", PStr "95.00")]) /\
  find_and_calculate_room_prices (PDict scenario_prices) (NInt 0)
    = Ok (Some "Deluxe", Some eighty,
          [("Standard", PStr "100.00"); ("Deluxe", PStr "80.00")]) /\
  Some "Deluxe" = Some "Deluxe" /\ Some eighty = Some eighty.
Proof.
  assert (find_and_calculate_room_prices (PDict scenario_prices) (NFloat fifteen)
          = Ok (Some "Deluxe", Some eighty,
                [("Standard", PStr "115.00"); ("Deluxe", PStr "95.00")]))
    as H1 by by_computation.
  assert (find_and_calculate_room_prices (PDict scenario_prices) (NInt 0)
          = Ok (Some "Deluxe", Some eighty,
                [("Standard", PStr "100.00"); ("Deluxe", PStr "80.00")]))
    as H2 by by_computation.
  repeat (split; [assumption | ]).
  exact (the_cheapest_room_does_not_depend_on_the_taxes
           scenario_prices (NFloat fifteen) (NInt 0) _ _ _ _ _ _ H1 H2).
Defined.

(** A returned room has a price no room of the mapping goes below. *)
Lemma find_no_lower shown total_taxes room price totals :
  shown <> [] ->
  find_and_calculate_room_prices (PDict shown) total_taxes = Ok (room, price, totals) ->
  exists r v p,
    room = Some r /\ price = Some p /\ In (r, v) shown /\ py_float v = Ok p /\
    forall k' v' x, In (k', v') shown -> py_float v' = Ok x -> PyFloat.ltb x p = false.
Proof.
  intros Hne Hfind.
  destruct (find_cheapest _ _ _ _ _ Hne Hfind)
    as (before & r & v & after & p & Hsplit & Hr & Hp & Hv & Hb & Ha).
  rewrite List.Forall_forall in Hb, Ha.
  exists r, v, p. repeat split; trivial.
  - rewrite Hsplit. apply in_app_iff. right. now left.
  - intros k' v' x Hin Hx. rewrite Hsplit in Hin.
    apply in_app_iff in Hin as [Hin | [Heq | Hin]].
    + now apply (Hb (k', v') Hin x).
    + inversion Heq; subst. assert (x = p) by congruence. subst.
      apply FloatOrder.ltb_irrefl.
    + now apply (Ha (k', v') Hin x).
Qed.

(** X9.  The total of the cheapest room is in [room_totals] under its name:
    for a mapping with distinct keys, the entry of the returned room is the
    [.2f] format of the returned net price plus the tax total. *)
Theorem room_totals_holds_the_total_of_the_cheapest_room
    (shown : dict pyval) (total_taxes : number) (tx : PyFloat.float)
    (r : string) (p : PyFloat.float) (totals : dict pyval) :
  List.NoDup (dict_keys shown) ->
  number_to_float total_taxes = Ok tx ->
  find_and_calculate_room_prices (PDict shown) total_taxes = Ok (Some r, Some p, totals) ->
  dict_get r totals = Some (PStr (PyFloat.format_2f (PyFloat.add p tx))).
Proof.
  intros Hnd Ht Hfind.
  assert (shown <> []) as Hne.
  { intros ->. discriminate Hfind. }
  destruct (find_no_lower _ _ _ _ _ Hne Hfind) as (r' & v & p' & Hr & Hp & Hin & Hv & _).
  inversion Hr; inversion Hp; subst r' p'.
  pose proof (find_totals _ _ _ _ _ Hnd Hfind) as Hall.
  destruct (total_entries_In _ _ _ r v Hall Hin) as (x & tx' & Hx & Ht' & Hin').
  assert (x = p) by congruence. assert (tx' = tx) by congruence. subst.
  apply dict_get_In; [ | exact Hin'].
  now rewrite (total_entries_keys _ _ _ Hall).
Qed.

Lemma room_totals_holds_the_total_of_the_cheapest_room_witness :
  List.NoDup (dict_keys scenario_prices) /\
  number_to_float (NFloat fifteen) = Ok fifteen /\
  find_and_calculate_room_prices (PDict scenario_prices) (NFloat fifteen)
    = Ok (Some "Deluxe", Some eighty,
          [("Standard", PStr "115.00"); ("Deluxe", PStr "95.00")]) /\
  dict_get "Deluxe" [("Standard", PStr "115.00"); ("Deluxe", PStr "95.00")]
    = Some (PStr (PyFloat.format_2f (PyFloat.add eighty fifteen))).
Proof.
  assert (List.NoDup (dict_keys scenario_prices)) as H1 by distinct_keys.
  assert (number_to_float (NFloat fifteen) = Ok fifteen) as H2 by reflexivity.
  assert (find_and_calculate_room_prices (PDict scenario_prices) (NFloat fifteen)
          = Ok (Some "Deluxe", Some eighty,
                [("Standard", PStr "115.00"); ("Deluxe", PStr "95.00")]))
    as H3 by by_computation.
  repeat (split; [assumption | ]).
  exact (room_totals_holds_the_total_of_the_cheapest_room
           scenario_prices (NFloat fifteen) fifteen "Deluxe" eighty _ H1 H2 H3).
Defined.

Lemma room_loop_keeps_a_number total_taxes items :
  forall st st' c,
    cheapest_price st = Some c -> PyFloat.is_nan c = false ->
    room_loop total_taxes st items = Ok st' ->
    exists c', cheapest_price st' = Some c' /\ PyFloat.is_nan c' = false.
Proof.
  induction items as [| [k v] items IH]; cbn [room_loop]; intros st st' c Hc Hnan Hrun.
  - inversion Hrun; subst. eauto.
  - destruct (room_step total_taxes st (k, v)) as [st1 | e] eqn:Hstep;
      cbn [bind] in Hrun; [ | discriminate].
    apply room_step_inv in Hstep as (x & tx & _ & _ & _ & Hcase).
    destruct Hcase as [(Hcheap & _ & Hp1) | (_ & _ & Hp1)].
    + rewrite Hc in Hcheap. simpl in Hcheap.
      apply FloatOrder.ltb_rank in Hcheap as (Hx & _).
      exact (IH st1 st' x Hp1 Hx Hrun).
    + rewrite Hc in Hp1. exact (IH st1 st' c Hp1 Hnan Hrun).
Qed.

(** X10.  A NaN is never below anything: when the first price of the
    mapping is not NaN, the returned price is not NaN either, and it is at
    most every price of the mapping that is not NaN; rooms whose price is
    NaN are passed over. *)
Theorem nan_prices_after_the_first_are_passed_over
    (k : string) (v : pyval) (x : PyFloat.float) (rest : dict pyval)
    (total_taxes : number)
    (room : option string) (price : option PyFloat.float) (totals : dict pyval) :
  py_float v = Ok x ->
  PyFloat.is_nan x = false ->
  find_and_calculate_room_prices (PDict ((k, v) :: rest)) total_taxes
    = Ok (room, price, totals) ->
  exists r p,
    room = Some r /\ price = Some p /\ PyFloat.is_nan p = false /\
    forall k' v' x', In (k', v') ((k, v) :: rest) -> py_float v' = Ok x' ->
      PyFloat.is_nan x' = false -> PyFloat.leb p x' = true.
Proof.
  intros Hv Hnan Hfind.
  assert ((k, v) :: rest <> []) as Hne by discriminate.
  destruct (find_no_lower _ _ _ _ _ Hne Hfind) as (r & w & p & Hr & Hp & _ & _ & Hmin).
  exists r, p.
  assert (PyFloat.is_nan p = false) as Hp_nan.
  { apply find_inv in Hfind as (st & Hloop & _ & Hprice & _).
    cbn [room_loop] in Hloop.
    destruct (room_step total_taxes _ (k, v)) as [st1 | e] eqn:Hstep;
      cbn [bind] in Hloop; [ | discriminate].
    apply room_step_inv in Hstep as (y & _ & Hy & _ & _ & Hcase).
    assert (y = x) by congruence. subst y.
    destruct Hcase as [(_ & _ & Hp1) | (Hc & _)]; [ | discriminate].
    destruct (room_loop_keeps_a_number _ _ _ _ x Hp1 Hnan Hloop) as (c' & Hc' & Hnan').
    congruence. }
  repeat split; trivial.
  intros k' v' x' Hin Hx' Hnan'. apply FloatOrder.not_ltb_leb; eauto.
Qed.

Lemma nan_prices_after_the_first_are_passed_over_witness :
  py_float (PStr "100.00") = Ok hundred /\
  PyFloat.is_nan hundred = false /\
  find_and_calculate_room_prices (PDict nan_prices) (NFloat fifteen)
    = Ok (Some "Suite", Some eighty,
          [("Standard", PStr "115.00"); ("Deluxe", PStr "nan"); ("Suite", PStr "95.00")]) /\
  exists r p,
    Some "Suite" = Some r /\ Some eighty = Some p /\ PyFloat.is_nan p = false /\
    forall k' v' x', In (k', v') nan_prices -> py_float v' = Ok x' ->
      PyFloat.is_nan x' = false -> PyFloat.leb p x' = true.
Proof.
  assert (py_float (PStr "100.00") = Ok hundred) as H1 by by_computation.
  assert (PyFloat.is_nan hundred = false) as H2 by reflexivity.
  assert (find_and_calculate_room_prices (PDict nan_prices) (NFloat fifteen)
          = Ok (Some "Suite", Some eighty,
                [("Standard", PStr "115.00"); ("Deluxe", PStr "nan");
                 ("Suite", PStr "95.00")])) as H3 by by_computation.
  repeat (split; [assumption | ]).
  exact (nan_prices_after_the_first_are_passed_over
           "Standard" (PStr "100.00") hundred
           [("Deluxe", PStr "nan"); ("Suite", PStr "80.00")]
           (NFloat fifteen) _ _ _ H1 H2 H3).
Defined.

(** X11.  One more room at the end of the mapping: it becomes the cheapest
    room exactly when its price is below the cheapest price so far, or when
    there was no room before, and its total is added after the others. *)
Theorem a_room_added_last
    (shown : dict pyval) (k : string) (v : pyval) (x tx : PyFloat.float)
    (total_taxes : number)
    (room : option string) (price : option PyFloat.float) (totals : dict pyval) :
  List.NoDup (dict_keys (shown ++ [(k, v)])) ->
  number_to_float total_taxes = Ok tx ->
  py_float v = Ok x ->
  find_and_calculate_room_prices (PDict shown) total_taxes = Ok (room, price, totals) ->
  find_and_calculate_room_prices (PDict (shown ++ [(k, v)])) total_taxes =
  Ok (if is_cheaper x price then Some k else room,
      if is_cheaper x price then Some x else price,
      totals ++ [(k, PStr (PyFloat.format_2f (PyFloat.add x tx)))]).
Proof.
  intros Hnd Ht Hv Hfind.
  unfold dict_keys in Hnd. rewrite map_app in Hnd.
  pose proof (NoDup_remove_1 _ _ _ Hnd) as Hnd'.
  pose proof (NoDup_remove_2 _ _ _ Hnd) as Hfresh.
  rewrite app_nil_r in Hnd', Hfresh.
  pose proof (find_totals _ _ _ _ _ Hnd' Hfind) as Hall.
  pose proof (total_entries_keys _ _ _ Hall) as Hkeys.
  apply find_inv in Hfind as (st & Hloop & -> & -> & ->).
  rewrite find_unfold, room_loop_app, Hloop. cbn [bind room_loop].
  unfold room_step. rewrite Hv, Ht. cbn [bind].
  rewrite dict_set_fresh by (rewrite Hkeys; exact Hfresh).
  destruct (is_cheaper x (cheapest_price st)); reflexivity.
Qed.

Lemma a_room_added_last_witness :
  List.NoDup (dict_keys (scenario_prices ++ [("Suite", PStr "79.99")])) /\
  number_to_float (NFloat fifteen) = Ok fifteen /\
  py_float (PStr "79.99") = Ok (S754_finite false 5628795846771343 (-46)) /\
  find_and_calculate_room_prices (PDict scenario_prices) (NFloat fifteen)
    = Ok (Some "Deluxe", Some eighty,
          [("Standard", PStr "115.00"); ("Deluxe", PStr "95.00")]) /\
  find_and_calculate_room_prices
    (PDict (scenario_prices ++ [("Suite", PStr "79.99")])) (NFloat fifteen)
  = Ok (Some "Suite", Some (S754_finite false 5628795846771343 (-46)),
        [("Standard", PStr "115.00"); ("Deluxe", PStr "95.00"); ("Suite", PStr "94.99")]).
Proof.
  assert (List.NoDup (dict_keys (scenario_prices ++ [("Suite", PStr "79.99")])))
    as H1 by distinct_keys.
  assert (number_to_float (NFloat fifteen) = Ok fifteen) as H2 by reflexivity.
  assert (py_float (PStr "79.99") = Ok (S754_finite false 5628795846771343 (-46)))
    as H3 by by_computation.
  assert (find_and_calculate_room_prices (PDict scenario_prices) (NFloat fifteen)
          = Ok (Some "Deluxe", Some eighty,
                [("Standard", PStr "115.00"); ("Deluxe", PStr "95.00")]))
    as H4 by by_computation.
  repeat (split; [assumption | ]).
  exact (a_room_added_last scenario_prices "Suite" (PStr "79.99") _ fifteen
           (NFloat fifteen) _ _ _ H1 H2 H3 H4).
Defined.

(** ** More on [parse_taxes] *)

(** X12.  With a single tax, the total is the float of that tax: adding it
    to the zero the sum starts from gives it back, except that a negative
    zero comes out as zero. *)
Theorem a_single_tax_is_its_own_total
    (s k : string) (v : pyval) (x : PyFloat.float) :
  Json.decode s = Some (PDict [(k, v)]) ->
  py_float v = Ok x ->
  parse_taxes (PStr s) = Ok (NFloat (PyFloat.add PyFloat.pos_zero x)) /\
  (x <> S754_zero true -> PyFloat.add PyFloat.pos_zero x = x) /\
  (x = S754_zero true -> PyFloat.add PyFloat.pos_zero x = PyFloat.pos_zero).
Proof.
  intros Hdec Hv. split; [ | split].
  - unfold parse_taxes, Json.loads. rewrite Hdec. cbn [of_option bind py_values].
    assert (converted (dict_values [(k, v)]) [x]) as Hconv
      by (repeat constructor; exact Hv).
    rewrite (sum_floats_from_zero _ _ Hconv). reflexivity.
  - intros Hx. destruct x as [[ | ] | sx | | sx m e]; try reflexivity. congruence.
  - intros ->. reflexivity.
Qed.

Lemma a_single_tax_is_its_own_total_witness :
  Json.decode (dq "{'vat': '10'}") = Some (PDict [("vat", PStr "10")]) /\
  py_float (PStr "10") = Ok ten /\
  parse_taxes (PStr (dq "{'vat': '10'}")) = Ok (NFloat (PyFloat.add PyFloat.pos_zero ten)) /\
  (ten <> S754_zero true -> PyFloat.add PyFloat.pos_zero ten = ten) /\
  (ten = S754_zero true -> PyFloat.add PyFloat.pos_zero ten = PyFloat.pos_zero).
Proof.
  assert (Json.decode (dq "{'vat': '10'}") = Some (PDict [("vat", PStr "10")]))
    as H1 by by_computation.
  assert (py_float (PStr "10") = Ok ten) as H2 by by_computation.
  repeat (split; [assumption | ]).
  exact (a_single_tax_is_its_own_total (dq "{'vat': '10'}") "vat" (PStr "10") ten H1 H2).
Defined.

(** ** Runs as a whole *)

(** What a run that returns has done. *)
Lemma main_returns_inv w w' :
  main w = (Ok tt, w') ->
  exists doc fields info totals shown,
    fst (read_json_file input_path w) = Ok doc /\
    extract_fields doc = Ok fields /\
    prepare_output fields = Ok (info, totals, shown) /\
    w' = report info totals shown w.
Proof.
  rewrite main_run.
  destruct (fst (read_json_file input_path w)) as [doc | e]; [ | discriminate].
  destruct (extract_fields doc) as [fields | e] eqn:Hfields; cbn [bind]; [ | discriminate].
  destruct (prepare_output fields) as [[[info totals] shown] | e] eqn:Hprep;
    [ | discriminate].
  intros H. inversion H; subst. exists doc, fields, info, totals, shown. auto.
Qed.

Lemma prepare_output_price fields info totals shown :
  prepare_output fields = Ok (info, totals, shown) ->
  getitem info (PStr "price") = Ok (PStr shown).
Proof.
  destruct fields as [[sh guests] taxes_json]. unfold prepare_output.
  destruct (parse_taxes taxes_json) as [total | e]; cbn [bind]; [ | discriminate].
  destruct (find_and_calculate_room_prices sh total) as [[[room price] tot] | e];
    cbn [bind]; [ | discriminate].
  destruct (format_2f price) as [text | e]; cbn [bind]; [ | discriminate].
  intros H. inversion H; subst. reflexivity.
Qed.

Lemma paths_differ : output_path <> input_path.
Proof. discriminate. Qed.

Lemma read_input_after_write w f :
  fst (read_json_file input_path (World (<[output_path := f]> (files w)) (console w)))
  = fst (read_json_file input_path w).
Proof.
  unfold read_json_file. cbn [files].
  rewrite (lookup_insert_ne (files w) output_path input_path f paths_differ).
  destruct (files w !! input_path) as [[s | n v] | ]; reflexivity.
Qed.

(** X14.  A run that returns has written the output file and no other: the
    content at every other path, the input path among them, is as before. *)
Theorem a_run_writes_the_output_file_only (w w' : world) :
  main w = (Ok tt, w') ->
  (exists output, files w' !! output_path = Some (JsonDump 4 output)) /\
  files w' !! input_path = files w !! input_path /\
  forall path, path <> output_path -> files w' !! path = files w !! path.
Proof.
  intros Hmain.
  destruct (main_returns_inv w w' Hmain)
    as (doc & fields & info & totals & shown & _ & _ & _ & ->).
  unfold report. cbn [files].
  assert (forall path, path <> output_path ->
            <[output_path := JsonDump 4 (output_record info totals)]> (files w) !! path
            = files w !! path) as Hother.
  { intros path Hne. apply lookup_insert_ne. congruence. }
  split; [ | split; [ | exact Hother]].
  - eexists. apply lookup_insert_eq.
  - apply Hother. intros H. exact (paths_differ (eq_sym H)).
Qed.

Lemma a_run_writes_the_output_file_only_witness :
  main (world_of scenario_text) = (Ok tt, snd (main (world_of scenario_text))) /\
  (exists output,
     files (snd (main (world_of scenario_text))) !! output_path
     = Some (JsonDump 4 output)) /\
  files (snd (main (world_of scenario_text))) !! input_path
    = files (world_of scenario_text) !! input_path /\
  forall path, path <> output_path ->
    files (snd (main (world_of scenario_text))) !! path
    = files (world_of scenario_text) !! path.
Proof.
  assert (main (world_of scenario_text) = (Ok tt, snd (main (world_of scenario_text))))
    as H1 by by_computation.
  split; [assumption | ].
  exact (a_run_writes_the_output_file_only _ _ H1).
Defined.

(** X15.  What a run prints is what it writes: it adds three lines to the
    console, the price, the record of the cheapest room and the totals, in
    this order; the record and the totals are those of the output file, and
    the price printed is the [price] of the record. *)
Theorem what_is_printed_is_what_is_written (w w' : world) :
  main w = (Ok tt, w') ->
  exists info totals shown,
    files w' !! output_path = Some (JsonDump 4 (output_record info totals)) /\
    console w' = console w ++
      [[PStr "Cheapest Price:"; PStr shown];
       [PStr "Cheapest Price Info:"; info];
       [PStr "Room Totals (Net Price + Taxes):"; PDict totals]] /\
    getitem info (PStr "price") = Ok (PStr shown).
Proof.
  intros Hmain.
  destruct (main_returns_inv w w' Hmain)
    as (doc & fields & info & totals & shown & _ & _ & Hprep & ->).
  exists info, totals, shown. unfold report. cbn [files console].
  repeat split.
  - apply lookup_insert_eq.
  - exact (prepare_output_price _ _ _ _ Hprep).
Qed.

Lemma what_is_printed_is_what_is_written_witness :
  main (world_of scenario_text) = (Ok tt, snd (main (world_of scenario_text))) /\
  exists info totals shown,
    files (snd (main (world_of scenario_text))) !! output_path
      = Some (JsonDump 4 (output_record info totals)) /\
    console (snd (main (world_of scenario_text))) = console (world_of scenario_text) ++
      [[PStr "Cheapest Price:"; PStr shown];
       [PStr "Cheapest Price Info:"; info];
       [PStr "Room Totals (Net Price + Taxes):"; PDict totals]] /\
    getitem info (PStr "price") = Ok (PStr shown).
Proof.
  assert (main (world_of scenario_text) = (Ok tt, snd (main (world_of scenario_text))))
    as H1 by by_computation.
  split; [assumption | ].
  exact (what_is_printed_is_what_is_written _ _ H1).
Defined.

Lemma room_loop_convert total_taxes items :
  forall st st', room_loop total_taxes st items = Ok st' -> prices_convert items.
Proof.
  induction items as [| [k v] items IH]; cbn [room_loop]; intros st st' Hrun.
  - constructor.
  - destruct (room_step total_taxes st (k, v)) as [st1 | e] eqn:Hstep;
      cbn [bind] in Hrun; [ | discriminate].
    apply room_step_inv in Hstep as (x & _ & Hx & _).
    constructor; [exists x; exact Hx | exact (IH st1 st' Hrun)].
Qed.

(** X16.  The output file is written only for prices that can be compared:
    when a run returns, the taxes have parsed and [shown_price] is an
    object that is not empty and whose prices all convert. *)
Theorem a_run_that_returns_had_prices
    (w w' : world) (doc shown guests taxes_json : pyval) :
  fst (read_json_file input_path w) = Ok doc ->
  extract_fields doc = Ok (shown, guests, taxes_json) ->
  main w = (Ok tt, w') ->
  exists d total,
    shown = PDict d /\ d <> [] /\ prices_convert d /\
    parse_taxes taxes_json = Ok total.
Proof.
  intros Hread Hfields Hmain.
  rewrite (main_of_fields w doc _ Hread Hfields) in Hmain.
  unfold prepare_output in Hmain.
  destruct (parse_taxes taxes_json) as [total | e]; cbn [bind] in Hmain; [ | discriminate].
  destruct (find_and_calculate_room_prices shown total)
    as [[[room price] totals] | e] eqn:Hfind; cbn [bind] in Hmain; [ | discriminate].
  destruct price as [p | ]; [ | discriminate].
  destruct shown as [| b | z | f | s | l | d]; try discriminate.
  exists d, total. repeat split; trivial.
  - intros ->. discriminate Hfind.
  - apply find_inv in Hfind as (st & Hloop & _). exact (room_loop_convert _ _ _ _ Hloop).
Qed.

Lemma a_run_that_returns_had_prices_witness :
  fst (read_json_file input_path (world_of scenario_text)) = Ok scenario_doc /\
  extract_fields scenario_doc
    = Ok (PDict scenario_prices, PInt 2, PStr scenario_taxes_text) /\
  main (world_of scenario_text) = (Ok tt, snd (main (world_of scenario_text))) /\
  exists d total,
    PDict scenario_prices = PDict d /\ d <> [] /\ prices_convert d /\
    parse_taxes (PStr scenario_taxes_text) = Ok total.
Proof.
  assert (fst (read_json_file input_path (world_of scenario_text)) = Ok scenario_doc)
    as H1 by by_computation.
  assert (extract_fields scenario_doc
          = Ok (PDict scenario_prices, PInt 2, PStr scenario_taxes_text))
    as H2 by by_computation.
  assert (main (world_of scenario_text) = (Ok tt, snd (main (world_of scenario_text))))
    as H3 by by_computation.
  repeat (split; [assumption | ]).
  exact (a_run_that_returns_had_prices _ _ _ _ _ _ H1 H2 H3).
Defined.

(** X17.  A second run after a run that returned returns too and leaves the
    files as the first left them; the console gets the same three lines
    once more. *)
Theorem a_second_run_writes_the_same_file (w w1 : world) :
  main w = (Ok tt, w1) ->
  exists w2 lines,
    main w1 = (Ok tt, w2) /\
    files w2 = files w1 /\
    console w1 = console w ++ lines /\
    console w2 = console w1 ++ lines.
Proof.
  intros Hmain.
  destruct (main_returns_inv w w1 Hmain)
    as (doc & fields & info & totals & shown & Hread & Hfields & Hprep & ->).
  assert (fst (read_json_file input_path (report info totals shown w)) = Ok doc)
    as Hread1.
  { unfold report.
    rewrite <- Hread.
    unfold read_json_file. cbn [files].
    rewrite (lookup_insert_ne (files w) output_path input_path _ paths_differ).
    destruct (files w !! input_path) as [[s | n v] | ]; reflexivity. }
  eexists. eexists. split; [ | split; [ | split]].
  - rewrite (main_of_fields _ doc fields Hread1 Hfields), Hprep. reflexivity.
  - unfold report. cbn [files]. apply insert_insert_eq.
  - reflexivity.
  - reflexivity.
Qed.

Lemma a_second_run_writes_the_same_file_witness :
  main (world_of scenario_text) = (Ok tt, snd (main (world_of scenario_text))) /\
  exists w2 lines,
    main (snd (main (world_of scenario_text))) = (Ok tt, w2) /\
    files w2 = files (snd (main (world_of scenario_text))) /\
    console (snd (main (world_of scenario_text)))
      = console (world_of scenario_text) ++ lines /\
    console w2 = console (snd (main (world_of scenario_text))) ++ lines.
Proof.
  assert (main (world_of scenario_text) = (Ok tt, snd (main (world_of scenario_text))))
    as H1 by by_computation.
  split; [assumption | ].
  exact (a_second_run_writes_the_same_file _ _ H1).
Defined.

(** X18.  The output file is written, never read: whatever it held before,
    the run has the same result and prints the same, and when the run
    returns the worlds it leaves are the same. *)
Theorem the_output_file_is_never_read (w : world) (old : file) :
  let w0 := World (<[output_path := old]> (files w)) (console w) in
  fst (main w0) = fst (main w) /\
  console (snd (main w0)) = console (snd (main w)) /\
  (forall w', main w = (Ok tt, w') -> main w0 = (Ok tt, w')).
Proof.
  intros w0.
  assert (main w0 =
          match fst (read_json_file input_path w) with
          | Ok doc =>
              match (let* fields := extract_fields doc in prepare_output fields) with
              | Ok (info, totals, shown) => (Ok tt, report info totals shown w)
              | Raise e => (Raise e, w0)
              end
          | Raise e => (Raise e, w0)
          end) as Hmain0.
  { rewrite main_run. unfold w0 at 1. rewrite read_input_after_write.
    destruct (fst (read_json_file input_path w)) as [doc | e]; [ | reflexivity].
    destruct (let* fields := extract_fields doc in prepare_output fields)
      as [[[info totals] shown] | e]; [ | reflexivity].
    unfold report, w0. cbn [files console]. rewrite insert_insert_eq. reflexivity. }
  rewrite Hmain0, main_run.
  destruct (fst (read_json_file input_path w)) as [doc | e];
    [ | repeat split; discriminate].
  destruct (let* fields := extract_fields doc in prepare_output fields)
    as [[[info totals] shown] | e]; repeat split; try discriminate.
  intros w' H. exact H.
Qed.

Lemma the_output_file_is_never_read_witness :
  let w0 := World (<[output_path := Text "old"]> (files (world_of scenario_text)))
                  (console (world_of scenario_text)) in
  fst (main w0) = fst (main (world_of scenario_text)) /\
  console (snd (main w0)) = console (snd (main (world_of scenario_text))) /\
  (forall w', main (world_of scenario_text) = (Ok tt, w') -> main w0 = (Ok tt, w')).
Proof.
  exact (the_output_file_is_never_read (world_of scenario_text) (Text "old")).
Defined.

(** X19.  From the text of the input file to the output file: when the run
    returns on a document whose [shown_price] is an object, the
    [room_totals] written has the keys of [shown_price], in its order, and
    under each key the [.2f] format of the converted price plus the total
    of the taxes. *)
Theorem written_totals_are_the_shown_prices_plus_taxes
    (w w' : world) (text : string) (doc guests taxes_json : pyval) (shown : dict pyval) :
  files w !! input_path = Some (Text text) ->
  Json.decode text = Some doc ->
  extract_fields doc = Ok (PDict shown, guests, taxes_json) ->
  main w = (Ok tt, w') ->
  exists info totals total tx,
    parse_taxes taxes_json = Ok total /\
    number_to_float total = Ok tx /\
    files w' !! output_path = Some (JsonDump 4 (output_record info totals)) /\
    dict_keys totals = dict_keys shown /\
    forall k v, In (k, v) shown ->
      exists x,
        py_float v = Ok x /\
        dict_get k totals = Some (PStr (PyFloat.format_2f (PyFloat.add x tx))).
Proof.
  intros Hfile Hdec Hfields Hmain.
  pose proof (shown_prices_distinct_keys _ _ _ _ _ Hdec Hfields) as Hnd.
  assert (fst (read_json_file input_path w) = Ok doc) as Hread.
  { unfold read_json_file, Json.loads. rewrite Hfile, Hdec. reflexivity. }
  rewrite (main_of_fields w doc _ Hread Hfields) in Hmain.
  unfold prepare_output in Hmain.
  destruct (parse_taxes taxes_json) as [total | e] eqn:Hparse;
    cbn [bind] in Hmain; [ | discriminate].
  destruct (find_and_calculate_room_prices (PDict shown) total)
    as [[[room price] totals] | e] eqn:Hfind; cbn [bind] in Hmain; [ | discriminate].
  destruct (format_2f price) as [shown_price | e]; cbn [bind] in Hmain; [ | discriminate].
  inversion Hmain; subst.
  destruct (parse_taxes_total _ _ Hparse) as [tx Htx].
  pose proof (find_totals _ _ _ _ _ Hnd Hfind) as Hall.
  pose proof (total_entries_keys _ _ _ Hall) as Hkeys.
  eexists _, totals, total, tx. repeat split; trivial.
  - unfold report. cbn [files]. apply lookup_insert_eq.
  - intros k v Hin.
    destruct (total_entries_In _ _ _ k v Hall Hin) as (x & tx' & Hx & Ht' & Hin').
    assert (tx' = tx) by congruence. subst tx'.
    exists x. split; [exact Hx | ].
    apply dict_get_In; [ | exact Hin']. now rewrite Hkeys.
Qed.

Lemma written_totals_are_the_shown_prices_plus_taxes_witness :
  files (world_of scenario_text) !! input_path = Some (Text scenario_text) /\
  Json.decode scenario_text = Some scenario_doc /\
  extract_fields scenario_doc
    = Ok (PDict scenario_prices, PInt 2, PStr scenario_taxes_text) /\
  main (world_of scenario_text) = (Ok tt, snd (main (world_of scenario_text))) /\
  exists info totals total tx,
    parse_taxes (PStr scenario_taxes_text) = Ok total /\
    number_to_float total = Ok tx /\
    files (snd (main (world_of scenario_text))) !! output_path
      = Some (JsonDump 4 (output_record info totals)) /\
    dict_keys totals = dict_keys scenario_prices /\
    forall k v, In (k, v) scenario_prices ->
      exists x,
        py_float v = Ok x /\
        dict_get k totals = Some (PStr (PyFloat.format_2f (PyFloat.add x tx))).
Proof.
  assert (files (world_of scenario_text) !! input_path = Some (Text scenario_text))
    as H1 by by_computation.
  assert (Json.decode scenario_text = Some scenario_doc) as H2 by by_computation.
  assert (extract_fields scenario_doc
          = Ok (PDict scenario_prices, PInt 2, PStr scenario_taxes_text))
    as H3 by by_computation.
  assert (main (world_of scenario_text) = (Ok tt, snd (main (world_of scenario_text))))
    as H4 by by_computation.
  repeat (split; [assumption | ]).
  exact (written_totals_are_the_shown_prices_plus_taxes _ _ _ _ _ _ _ H1 H2 H3 H4).
Defined.
